(** * Country Metric Comparison Tool: a shallow embedding of [comparison.py]

    The script is a Streamlit page: it loads a catalog (metric name to
    dataset link) from a spreadsheet, downloads the CSV behind a link,
    derives the list of countries, and on request compares two countries on
    one metric.  The embedding follows the script block by block:

    - [Text]      : the [str] methods the script calls ([lower], [in], [strip]);
    - [Pandas]    : the versions of the library, where they differ;
    - [Float64], [Numpy] : binary64 arithmetic and the sum behind [mean];
    - [Series]    : the pandas reductions it calls on one column
                    ([max], [min], [mean], [idxmax], [idxmin]);
    - [Frame]     : the dataset table and [sort_values];
    - [Comparison]: lines 144-318, the comparison block;
    - [Catalog]   : [load_dataset], lines 21-45, and its memo;
    - [Fetcher]   : [fetch_country_data], lines 48-66;
    - [Reader]    : [pd.read_csv] on a body without data;
    - [Resolver]  : the loop of the country list, lines 92-104;
    - [Sidebar]   : the same loop with its handler, lines 87-108;
    - [Chart], [Page], [Memo] : the line chart, the selectors, and
                    [st.cache_data] around the fetcher.

    A text is the sequence of its bytes; the methods of [Text] are those of
    [str] on ASCII texts.  A numeric cell is the rational number the cell
    denotes ([Q]); a missing cell (NaN) is [None].  The mean is computed as
    the library computes it, in binary64 arithmetic.  Where versions of the
    library differ, the version is a parameter. *)

From Stdlib Require Import List String Ascii Bool Arith ZArith QArith Qminmax.
From Stdlib Require Import Qround Qabs.
From Stdlib Require Import Lia Lqa Permutation Sorted OrderedTypeEx.
Import ListNotations.

Set Implicit Arguments.

(* ================================================================= *)
(** ** Text: the string methods used by the script *)

Module Text.

Open Scope string_scope.

(** [c.lower()] on one character: the ASCII capitals move down by 32. *)
Definition lower_ascii (c : ascii) : ascii :=
  let n := nat_of_ascii c in
  if (65 <=? n)%nat && (n <=? 90)%nat then ascii_of_nat (n + 32) else c.

(** [s.lower()] *)
Fixpoint lower (s : string) : string :=
  match s with
  | EmptyString => EmptyString
  | String c s' => String (lower_ascii c) (lower s')
  end.

(** [needle in hay] for two strings: [needle] starts at some offset of [hay]. *)
Fixpoint contains (needle hay : string) : bool :=
  String.prefix needle hay ||
  match hay with
  | EmptyString => false
  | String _ hay' => contains needle hay'
  end.

(** What [str.isspace] accepts among the ASCII characters: tab, line feed,
    vertical tab, form feed, carriage return, the four separators 28-31 and
    the blank. *)
Definition isspace (c : ascii) : bool :=
  let n := nat_of_ascii c in
  ((9 <=? n)%nat && (n <=? 13)%nat) || ((28 <=? n)%nat && (n <=? 32)%nat).

Fixpoint lstrip (s : string) : string :=
  match s with
  | EmptyString => EmptyString
  | String c s' => if isspace c then lstrip s' else s
  end.

Fixpoint rstrip (s : string) : string :=
  match s with
  | EmptyString => EmptyString
  | String c s' =>
      let r := rstrip s' in
      if isspace c && (r =? "") then "" else String c r
  end.

(** [s.strip()] *)
Definition strip (s : string) : string := rstrip (lstrip s).

(** [x in xs] for a list of strings. *)
Definition mem (x : string) (xs : list string) : bool :=
  existsb (String.eqb x) xs.

(** A text of ASCII characters only.  On such a text [lower] and [strip]
    above are what [str.lower] and [str.strip] do; beyond ASCII the
    methods of the interpreter follow the Unicode tables. *)
Fixpoint is_ascii (s : string) : bool :=
  match s with
  | EmptyString => true
  | String c s' => (nat_of_ascii c <? 128)%nat && is_ascii s'
  end.

End Text.

(* ================================================================= *)
(** ** Sorting: what [sorted] and [sort_values] do *)

(** Both calls are stable and ascending; insertion from the right keeps an
    element in front of the later elements it ties with. *)
Section Sorting.

Variable A : Type.
Variable leb : A -> A -> bool.

Fixpoint insert (x : A) (l : list A) : list A :=
  match l with
  | [] => [x]
  | y :: l' => if leb x y then x :: l else y :: insert x l'
  end.

Fixpoint sort (l : list A) : list A :=
  match l with
  | [] => []
  | x :: l' => insert x (sort l')
  end.

End Sorting.

(* ================================================================= *)
(** ** Pandas: where the versions of the library differ *)

(** The script pins no version.  One call it makes changed its behaviour:
    [idxmax] and [idxmin] on a column without a valid observation return
    NaN before version 3 (the case the script tests with [pd.isna]) and
    raise ValueError from version 3 on. *)
Module Pandas.

Inductive Version := Before3 | From3.

Definition idx_raises_on_all_na (pd : Version) : bool :=
  match pd with
  | Before3 => false
  | From3 => true
  end.

End Pandas.

(* ================================================================= *)
(** ** Float64: the arithmetic of the mean *)

(** Binary64 arithmetic on the rationals that are its finite values: an
    operation gives the exact result rounded to 53 significant bits, a tie
    going to the even neighbour, with the steps of the subnormal range
    below 2^-1022.  Magnitudes beyond 1.8e308, where binary64 has its
    infinities, are not represented. *)
Module Float64.

Open Scope Q_scope.

(** [floor (log2 |q|)] for [q] other than zero. *)
Definition exponent (q : Q) : Z :=
  let n := Z.abs (Qnum q) in
  let d := Zpos (Qden q) in
  let e := (Z.log2 n - Z.log2 d)%Z in
  if Qle_bool (2 ^ e) (Qabs q) then e else (e - 1)%Z.

(** The nearest integer, a tie going to the even one. *)
Definition nearest_even (q : Q) : Z :=
  let f := Qfloor q in
  match Qcompare (q - inject_Z f) (1 # 2) with
  | Lt => f
  | Gt => (f + 1)%Z
  | Eq => if Z.even f then f else (f + 1)%Z
  end.

Definition round (q : Q) : Q :=
  if (Qnum q =? 0)%Z then 0
  else
    let k := Z.max (exponent q - 52) (-1074) in
    Qred (inject_Z (nearest_even (q * 2 ^ (- k))) * 2 ^ k).

Definition add (x y : Q) : Q := round (x + y).
Definition div (x y : Q) : Q := round (x / y).

End Float64.

(* ================================================================= *)
(** ** Numpy: the sum of a binary64 array *)

(** [ndarray.sum] on a contiguous binary64 array, which is what the
    library's [nanmean] calls (without the optional bottleneck package):
    fewer than eight numbers are added one after the other; up to 128, in
    eight running sums that are added pairwise at the end, the numbers
    left over one after the other; more than 128, in two halves.  (A
    column of integers is converted first, in runs of 8192 numbers, each
    run summed this way.) *)
Module Numpy.

Open Scope Q_scope.

Definition sum_few (a : list Q) : Q := fold_left Float64.add a 0.

Fixpoint add_each (r a : list Q) : list Q :=
  match r, a with
  | x :: r', y :: a' => Float64.add x y :: add_each r' a'
  | _, _ => r
  end.

(** [k] rounds of eight numbers each into the running sums [r]. *)
Fixpoint unrolled (k : nat) (r a : list Q) : list Q * list Q :=
  match k with
  | O => (r, a)
  | S k' => unrolled k' (add_each r (firstn 8 a)) (skipn 8 a)
  end.

Definition sum_block (a : list Q) : Q :=
  let n := List.length a in
  let (r, rest) := unrolled (n / 8 - 1) (firstn 8 a) (skipn 8 a) in
  match r with
  | [r0; r1; r2; r3; r4; r5; r6; r7] =>
      fold_left Float64.add rest
        (Float64.add (Float64.add (Float64.add r0 r1) (Float64.add r2 r3))
                     (Float64.add (Float64.add r4 r5) (Float64.add r6 r7)))
  | _ => 0
  end.

Fixpoint pairwise_sum (fuel : nat) (a : list Q) : Q :=
  let n := List.length a in
  if (n <? 8)%nat then sum_few a
  else if (n <=? 128)%nat then sum_block a
  else
    match fuel with
    | O => 0
    | S fuel' =>
        let n2 := (n / 2 - (n / 2) mod 8)%nat in
        Float64.add (pairwise_sum fuel' (firstn n2 a))
                    (pairwise_sum fuel' (skipn n2 a))
    end.

(** The halves get shorter, so the length of the array is fuel enough. *)
Definition sum (a : list Q) : Q := pairwise_sum (List.length a) a.

End Numpy.

(* ================================================================= *)
(** ** Series: the reductions on one column of a row set *)

Module Series.

Open Scope Q_scope.

(** A column restricted to a row set, in row order; [None] is NaN. *)
Definition t := list (option Q).

(** The valid (non-missing) observations, in order: what every reduction
    below works on, since pandas reductions skip NaN. *)
Fixpoint dropna (s : t) : list Q :=
  match s with
  | [] => []
  | Some q :: s' => q :: dropna s'
  | None :: s' => dropna s'
  end.

Definition isna (v : option Q) : bool :=
  match v with Some _ => false | None => true end.

(** [s.max()]: NaN when no observation is valid. *)
Definition max (s : t) : option Q :=
  match dropna s with
  | [] => None
  | q :: l => Some (fold_left Qmax l q)
  end.

(** [s.min()] *)
Definition min (s : t) : option Q :=
  match dropna s with
  | [] => None
  | q :: l => Some (fold_left Qmin l q)
  end.

Definition sum (l : list Q) : Q := fold_right Qplus 0 l.

(** The number of observations, as a rational. *)
Definition count (l : list Q) : Q := inject_Z (Z.of_nat (List.length l)).

(** What [nanmean] sums: the column as binary64, a missing cell as 0. *)
Definition filled (v : option Q) : Q :=
  match v with
  | Some q => Float64.round q
  | None => 0
  end.

(** [s.mean()]: NaN when no observation is valid; else the sum of the
    filled column, as numpy adds it up, divided in binary64 by the number
    of valid observations. *)
Definition mean (s : t) : option Q :=
  match dropna s with
  | [] => None
  | q :: l => Some (Float64.div (Numpy.sum (map filled s)) (count (q :: l)))
  end.

(** Position of the first observation equal to [m]. *)
Fixpoint first_at (m : Q) (s : t) : option nat :=
  match s with
  | [] => None
  | Some q :: s' => if Qeq_bool q m then Some O else option_map S (first_at m s')
  | None :: s' => option_map S (first_at m s')
  end.

(** Whether [s.idxmax()] and [s.idxmin()] raise ValueError: always on an
    empty column, and on a column without a valid observation from
    version 3 of the library on. *)
Definition all_na (s : t) : bool :=
  match dropna s with
  | [] => true
  | _ :: _ => false
  end.

Definition idx_raises (pd : Pandas.Version) (s : t) : bool :=
  match s with
  | [] => true
  | _ :: _ => all_na s && Pandas.idx_raises_on_all_na pd
  end.

(** [s.idxmax()] when it returns: where the maximum first occurs, and NaN
    on a column without a valid observation, the case the script tests
    with [pd.isna(...idxmax())] on lines 186 and 196.  Row labels are
    unique, so a label is modelled by the position in the row set. *)
Definition idxmax (s : t) : option nat :=
  match max s with
  | None => None
  | Some m => first_at m s
  end.

(** [s.idxmin()] *)
Definition idxmin (s : t) : option nat :=
  match min s with
  | None => None
  | Some m => first_at m s
  end.

End Series.

(* ================================================================= *)
(** ** Frame: the dataset table *)

Module Frame.

Open Scope string_scope.

(** One record of a dataset: the entity, the year, and one numeric cell for
    each further column of the header, in header order.  A record shorter
    than the header is padded with NaN, as the CSV reader does. *)
Record Row := mkRow {
  Entity : string;
  Year : Z;
  cells : list (option Q)
}.

(** [columns] is the header as read, identifier columns included.  [rows]
    are the records whose Entity cell holds a text, in file order;
    [blank_entity] tells whether the file has further records whose Entity
    cell is empty (NaN).  Such a record belongs to no country, so no
    comparison reads it; the list of countries is where it shows. *)
Record DataFrame := mkFrame {
  columns : list string;
  rows : list Row;
  blank_entity : bool
}.

(** The columns that own a cell of [cells]. *)
Definition value_columns (data : DataFrame) : list string :=
  filter (fun c => negb (c =? "Entity") && negb (c =? "Year")) (columns data).

Fixpoint lookup (cols : list string) (cs : list (option Q)) (c : string)
  : option Q :=
  match cols, cs with
  | k :: cols', v :: cs' => if k =? c then v else lookup cols' cs' c
  | _, _ => None
  end.

(** [row[c]] for a numeric column [c]; the column "Year" reads the year. *)
Definition at_column (data : DataFrame) (c : string) (r : Row) : option Q :=
  if c =? "Year" then Some (inject_Z (Year r))
  else lookup (value_columns data) (cells r) c.

(** [data[data["Entity"] == country]] *)
Definition of_entity (data : DataFrame) (country : string) : list Row :=
  filter (fun r => Entity r =? country) (rows data).

(** [part[c]] *)
Definition column (data : DataFrame) (c : string) (part : list Row)
  : Series.t :=
  map (at_column data c) part.

(** [part.dropna(subset=[c])] *)
Definition dropna (data : DataFrame) (c : string) (part : list Row)
  : list Row :=
  filter (fun r => negb (Series.isna (at_column data c r))) part.

(** A record of [part[["Entity", "Year", c]]]. *)
Definition Triple := (string * Z * option Q)%type.

Definition project (data : DataFrame) (c : string) (r : Row) : Triple :=
  (Entity r, Year r, at_column data c r).

(** The order of [sort_values(["Entity", "Year"])]: entity first, by code
    point, then year. *)
Definition key_leb (x y : Triple) : bool :=
  match x, y with
  | (e1, y1, _), (e2, y2, _) =>
      match String.compare e1 e2 with
      | Lt => true
      | Eq => (y1 <=? y2)%Z
      | Gt => false
      end
  end.

Definition sort_values (l : list Triple) : list Triple := sort key_leb l.

End Frame.

(* ================================================================= *)
(** ** Comparison: lines 144-318 *)

(** The dictionaries [country_a_stats] and [country_b_stats]. *)
Module Stats.
Record t := mk {
  max : option Q;
  min : option Q;
  mean : option Q;
  max_year : option Z;
  min_year : option Z
}.
End Stats.

Module Comparison.

Import Frame.
Open Scope string_scope.

(** The messages that end a comparison attempt and leave the page ready for
    the next one. *)
Inductive Failure :=
  | InvalidFormat                         (* line 145 *)
  | NoDataForCountry (country : string)   (* lines 152 and 154 *)
  | ColumnNotFound (metric : string)      (* lines 164-165, then [st.stop()] *)
  | MissingCurrentValue.                  (* line 202 *)

(** Exceptions of the library that nothing in the block catches. *)
Inductive Exn :=
  | TypeError    (* [mean] of a column of strings *)
  | ValueError.  (* [idxmax] without a valid observation; [sort_values] by a
                    label that occurs twice *)

(** What a successful comparison shows.  [delta] is the difference of the
    two current values as a number: what line 219 gives when the scalars
    of the column can hold it (no rounding in binary64, no wrap in 64-bit
    integers). *)
Record Result := mkResult {
  metric_column : string;
  latest_year_a : Z;
  latest_year_b : Z;
  value_a : Q;
  value_b : Q;
  delta : Q;
  country_a_stats : Stats.t;
  country_b_stats : Stats.t;
  country_a_time : list Row;
  country_b_time : list Row;
  combined_data : list Triple
}.

Inductive Outcome :=
  | Done (r : Result)
  | Failed (f : Failure)
  | Raised (e : Exn).

(** Line 157: the columns whose lowered name contains the lowered metric. *)
Definition metric_columns (cols : list string) (selected_metric : string)
  : list string :=
  filter (fun col => Text.contains (Text.lower selected_metric) (Text.lower col))
         cols.

(** Line 160: the columns that are not identifiers. *)
Definition potential_columns (cols : list string) : list string :=
  filter (fun col => negb (Text.mem col ["Entity"; "Year"; "Code"])) cols.

(** Lines 157-167: the column the comparison reads, if any. *)
Definition find_metric_column (cols : list string) (selected_metric : string)
  : option string :=
  match metric_columns cols selected_metric with
  | [] =>
      match potential_columns cols with
      | col :: _ => Some col
      | [] => None
      end
  | col :: _ => Some col
  end.

(** Lines 170-171 on a row set with first record [r]. *)
Definition latest_year (r : Row) (rest : list Row) : Z :=
  fold_left Z.max (map Year rest) (Year r).

(** Lines 173-178: the cell of the first record that carries [year]. *)
Definition latest_value (data : DataFrame) (c : string) (part : list Row)
  (year : Z) : option Q :=
  match filter (fun r => (Year r =? year)%Z) part with
  | r :: _ => at_column data c r
  | [] => None
  end.

(** [part.loc[label, "Year"]], guarded by [pd.isna(label)]. *)
Definition year_at (part : list Row) (label : option nat) : option Z :=
  match label with
  | None => None
  | Some i => option_map Year (nth_error part i)
  end.

(** Lines 181-199, when they raise nothing. *)
Definition statistics (data : DataFrame) (c : string) (part : list Row)
  : Stats.t :=
  let s := column data c part in
  {| Stats.max := Series.max s;
     Stats.min := Series.min s;
     Stats.mean := Series.mean s;
     Stats.max_year := year_at part (Series.idxmax s);
     Stats.min_year := year_at part (Series.idxmin s) |}.

(** Whether lines 181-199 raise on a row set: [idxmax] on lines 185-186 is
    the first call that can, and [idxmin] raises on the same columns. *)
Definition statistics_raise (pd : Pandas.Version) (data : DataFrame)
  (c : string) (part : list Row) : bool :=
  Series.idx_raises pd (column data c part).

(** Lines 313-316. *)
Definition combine (data : DataFrame) (c : string) (a b : list Row)
  : list Triple :=
  sort_values (map (project data c) a ++ map (project data c) b).

(** Lines 169-318, for the column [col] and the two row sets
    [ra :: rest_a] and [rb :: rest_b], both known to be non-empty.

    Two columns cannot serve as the metric column.  "Entity" holds strings:
    [max] and [min] accept them and [mean] on line 184 raises.  "Year" is
    already one of the three selected columns, so the frame of line 314 has
    two columns of that label and [sort_values] on line 316 raises.
    Between the two, the statistics raise where [idxmax] does. *)
Definition report (pd : Pandas.Version) (data : DataFrame) (col : string)
  (ra : Row) (rest_a : list Row) (rb : Row) (rest_b : list Row) : Outcome :=
  let country_a_data := ra :: rest_a in
  let country_b_data := rb :: rest_b in
  let year_a := latest_year ra rest_a in
  let year_b := latest_year rb rest_b in
  let v_a := latest_value data col country_a_data year_a in
  let v_b := latest_value data col country_b_data year_b in
  if col =? "Entity" then Raised TypeError
  else if statistics_raise pd data col country_a_data
          || statistics_raise pd data col country_b_data
  then Raised ValueError
  else
    let stats_a := statistics data col country_a_data in
    let stats_b := statistics data col country_b_data in
    match v_a, v_b with
    | Some va, Some vb =>
        if col =? "Year" then Raised ValueError
        else
          Done {| metric_column := col;
                  latest_year_a := year_a;
                  latest_year_b := year_b;
                  value_a := va;
                  value_b := vb;
                  delta := (vb - va)%Q;   (* line 219, as a number *)
                  country_a_stats := stats_a;
                  country_b_stats := stats_b;
                  country_a_time := dropna data col country_a_data;
                  country_b_time := dropna data col country_b_data;
                  combined_data :=
                    combine data col country_a_data country_b_data |}
    | _, _ => Failed MissingCurrentValue
    end.

(** The block under [if data is None ... else], lines 144-318. *)
Definition compare (pd : Pandas.Version) (data : DataFrame)
  (country_a country_b : string) (selected_metric : string) : Outcome :=
  if negb (Text.mem "Entity" (columns data))
     || negb (Text.mem "Year" (columns data))
  then Failed InvalidFormat
  else
    match of_entity data country_a with
    | [] => Failed (NoDataForCountry country_a)
    | ra :: rest_a =>
        match of_entity data country_b with
        | [] => Failed (NoDataForCountry country_b)
        | rb :: rest_b =>
            match find_metric_column (columns data) selected_metric with
            | None => Failed (ColumnNotFound selected_metric)
            | Some col => report pd data col ra rest_a rb rest_b
            end
        end
    end.

End Comparison.

(* ================================================================= *)
(** ** Catalog: [load_dataset], lines 21-45 *)

Module Catalog.

Open Scope string_scope.

(** A worksheet as the Excel reader hands it to the parser: a header and
    records of text cells, a blank cell being the empty text.  Cells of
    other types (numbers, dates) are not represented. *)
Record Sheet := mkSheet {
  titles : list string;
  lines : list (list string)
}.

(** A file offered to [pd.read_excel]: not a workbook at all, or a workbook
    with named sheets. *)
Inductive Workbook :=
  | Unreadable
  | Book (sheets : list (string * Sheet)).

(** The catalog frame: text cells, [None] for NaN. *)
Record Table := mkTable {
  header : list string;
  records : list (list (option string))
}.

(** The texts the reader turns into NaN when [na_values] is left at its
    default, as [load_dataset] leaves it; the empty text is the first. *)
Definition STR_NA_VALUES : list string :=
  [""; "#N/A"; "#N/A N/A"; "#NA"; "-1.#IND"; "-1.#QNAN"; "-NaN"; "-nan";
   "1.#IND"; "1.#QNAN"; "<NA>"; "N/A"; "NA"; "NULL"; "NaN"; "None"; "n/a";
   "nan"; "null"].

Definition parse_cell (text : string) : option string :=
  if Text.mem text STR_NA_VALUES then None else Some text.

Fixpoint find_sheet (name : string) (sheets : list (string * Sheet))
  : option Sheet :=
  match sheets with
  | [] => None
  | (n, s) :: rest => if n =? name then Some s else find_sheet name rest
  end.

(** [pd.read_excel(file, sheet_name=name)]; [None] when the call raises. *)
Definition read_excel (file : Workbook) (name : string) : option Table :=
  match file with
  | Unreadable => None
  | Book sheets =>
      match find_sheet name sheets with
      | None => None
      | Some s => Some {| header := titles s;
                          records := map (map parse_cell) (lines s) |}
      end
  end.

Fixpoint position (name : string) (names : list string) : option nat :=
  match names with
  | [] => None
  | n :: rest => if n =? name then Some O else option_map S (position name rest)
  end.

(** [record[i]], NaN beyond the end of a short record. *)
Definition cell (i : nat) (record : list (option string)) : option string :=
  nth i record None.

(** [df.dropna(subset=[name])]; [None] when the column does not exist
    (KeyError). *)
Definition dropna (df : Table) (name : string) : option Table :=
  match position name (header df) with
  | None => None
  | Some i =>
      Some {| header := header df;
              records :=
                filter (fun r => match cell i r with Some _ => true | None => false end)
                       (records df) |}
  end.

(** [df[name]] as a list, for a column that exists. *)
Definition column (df : Table) (name : string) : list (option string) :=
  match position name (header df) with
  | None => []
  | Some i => map (cell i) (records df)
  end.

Definition LINK : string := "data link full column names".

(** What the session offers to [load_dataset]: the workbook at [file_path]
    when [os.path.exists] holds, and the file behind the uploader, if any. *)
Record Session := mkSession {
  local_file : option Workbook;
  uploaded_file : option Workbook
}.

(** The function returns a frame or [None]; the message shown beside [None]
    tells the two causes apart. *)
Inductive Loaded :=
  | Dataset (df : Table)
  | NothingUploaded            (* line 38 *)
  | ErrorLoadingDataset.       (* lines 43-45 *)

Definition clean (file : Workbook) : Loaded :=
  match read_excel file "Sheet1" with
  | None => ErrorLoadingDataset
  | Some df =>
      match dropna df LINK with
      | None => ErrorLoadingDataset
      | Some df' => Dataset df'
      end
  end.

Definition load_dataset (s : Session) : Loaded :=
  match local_file s with
  | Some file => clean file
  | None =>
      match uploaded_file s with
      | Some file => clean file
      | None => NothingUploaded
      end
  end.

(** [@st.cache_data] on line 21.  The function takes no argument, so the
    memo has room for one value: the body above runs on the first call and
    what it returned, [None] included, is handed back on every later call. *)
Definition load_dataset_cached (memo : option Loaded) (s : Session)
  : Loaded * option Loaded :=
  match memo with
  | Some r => (r, memo)
  | None => let r := load_dataset s in (r, Some r)
  end.

(** What the successive runs of the script get on line 77, one session
    for each run. *)
Fixpoint reruns (memo : option Loaded) (sessions : list Session)
  : list Loaded :=
  match sessions with
  | [] => []
  | s :: later =>
      let (r, memo') := load_dataset_cached memo s in
      r :: reruns memo' later
  end.

End Catalog.

(* ================================================================= *)
(** ** Fetcher: [fetch_country_data], lines 48-66 *)

Module Fetcher.

Import Frame.

(** The exceptions the [try] of the fetcher can see. *)
Inductive Exn :=
  | RequestException   (* raised by [requests.get]: no network, timeout *)
  | ParseError.        (* raised by [pd.read_csv] *)

(** A response: status code and body. *)
Record Response := mkResponse {
  status_code : Z;
  content : string
}.

(** The function returns a frame or [None]; the message shown beside [None]
    tells the causes apart. *)
Inductive Fetched :=
  | Data (data : DataFrame)
  | FailedToFetch (status : Z)     (* lines 62-63 *)
  | ErrorFetching (e : Exn).       (* lines 65-66 *)

Section Fetch.

(** The two collaborators: the network as it answers during the session
    ([None] when the request raises) and the CSV reader ([None] when it
    raises).  The memo of [st.cache_data] hands back what the first call
    returned; with a network that answers a link the same way each time,
    that is what a second call would return. *)
Variable requests_get : string -> option Response.
Variable read_csv : string -> option DataFrame.

Definition fetch_country_data (url : string) : Fetched :=
  match requests_get url with
  | None => ErrorFetching RequestException
  | Some response =>
      if (status_code response =? 200)%Z then
        match read_csv (content response) with
        | Some data => Data data
        | None => ErrorFetching ParseError
        end
      else FailedToFetch (status_code response)
  end.

End Fetch.

End Fetcher.

(* ================================================================= *)
(** ** Reader: [pd.read_csv] on a body without data *)

(** The fetcher calls the reader of the library with its defaults.  What
    the reader does with a body that holds no record, or a plain header
    and no record, is written out here; every other body is left to
    [beyond], the reader on bodies with data or with a header that needs
    quoting, renaming or decoding. *)
Module Reader.

Import Frame.
Open Scope string_scope.

(** Line feed and carriage return end a line. *)
Definition is_break (c : ascii) : bool :=
  let n := nat_of_ascii c in (n =? 10)%nat || (n =? 13)%nat.

(** The lines of a body, the line in progress first. *)
Fixpoint lines_from (line body : string) : list string :=
  match body with
  | EmptyString => [line]
  | String c body' =>
      if is_break c then line :: lines_from "" body'
      else lines_from (line ++ String c "") body'
  end.

(** A line of blanks and tabs, or of nothing: the reader skips it. *)
Fixpoint is_blank (line : string) : bool :=
  match line with
  | EmptyString => true
  | String c line' =>
      let n := nat_of_ascii c in
      ((n =? 32)%nat || (n =? 9)%nat) && is_blank line'
  end.

(** The lines the reader parses. *)
Definition records (body : string) : list string :=
  filter (fun line => negb (is_blank line)) (lines_from "" body).

(** The fields of a line without quotes. *)
Fixpoint fields_from (field line : string) : list string :=
  match line with
  | EmptyString => [field]
  | String c line' =>
      if (nat_of_ascii c =? 44)%nat then field :: fields_from "" line'
      else fields_from (field ++ String c "") line'
  end.

Definition fields (line : string) : list string := fields_from "" line.

(** A name the reader takes as it stands: not empty, of printable ASCII
    characters other than the double quote, not starting with a blank. *)
Fixpoint printable (s : string) : bool :=
  match s with
  | EmptyString => true
  | String c s' =>
      let n := nat_of_ascii c in
      (32 <=? n)%nat && (n <=? 126)%nat && negb (n =? 34)%nat && printable s'
  end.

Definition plain_name (s : string) : bool :=
  match s with
  | EmptyString => false
  | String c _ => negb (nat_of_ascii c =? 32)%nat && printable s
  end.

Fixpoint distinct (names : list string) : bool :=
  match names with
  | [] => true
  | n :: rest => negb (Text.mem n rest) && distinct rest
  end.

(** A header of plain names, no two alike: the names become the columns
    unchanged. *)
Definition plain_header (line : string) : bool :=
  forallb plain_name (fields line) && distinct (fields line).

Section Read.

Variable beyond : string -> option DataFrame.

(** [pd.read_csv(BytesIO(body))]; [None] when the call raises.  A body
    without a line to parse raises EmptyDataError; a body that is one
    plain header gives the frame of these columns without a record. *)
Definition read_csv (body : string) : option DataFrame :=
  match records body with
  | [] => None
  | [header] =>
      if plain_header header
      then Some {| columns := fields header; rows := []; blank_entity := false |}
      else beyond body
  | _ :: _ :: _ => beyond body
  end.

End Read.

End Reader.

(* ================================================================= *)
(** ** Resolver: the country list, lines 69-108 *)

Module Resolver.

Import Frame Fetcher.
Open Scope string_scope.

Definition FALLBACK_COUNTRIES : list string :=
  ["United States"; "China"; "India"; "Russia"; "Germany";
   "United Kingdom"; "France"; "Japan"; "Brazil"; "Canada";
   "Australia"; "Italy"; "Spain"; "Mexico"; "South Korea";
   "Indonesia"; "Turkey"; "Saudi Arabia"; "Argentina"; "South Africa"].

(** [series.unique()]: each value once, in order of first appearance. *)
Fixpoint unique (l : list string) : list string :=
  match l with
  | [] => []
  | x :: l' => x :: filter (fun y => negb (y =? x)) (unique l')
  end.

(** [sorted(...)] on strings: ascending by code point. *)
Definition sorted (l : list string) : list string := sort String.leb l.

(** Line 97. *)
Definition entities (first_data : DataFrame) : list string :=
  sorted (unique (map Entity (rows first_data))).

Section Resolve.

Variable requests_get : string -> option Response.
Variable read_csv : string -> option DataFrame.

(** Line 93: the link is present and not blank. *)
Definition usable (url : option string) : bool :=
  match url with
  | None => false
  | Some u => negb (Text.strip u =? "")
  end.

(** Line 96, for a link that passed line 93. *)
Definition probe (url : option string) : option DataFrame :=
  match url with
  | None => None
  | Some u =>
      match fetch_country_data requests_get read_csv u with
      | Data first_data =>
          if Text.mem "Entity" (columns first_data) then Some first_data
          else None
      | _ => None
      end
  end.

(** The loop of lines 92-99: [countries] starts empty and is assigned once,
    at the [break]. *)
Fixpoint scan (links : list (option string)) : list string :=
  match links with
  | [] => []
  | url :: rest =>
      if usable url then
        match probe url with
        | Some first_data => entities first_data
        | None => scan rest
        end
      else scan rest
  end.

(** Lines 87-104, on a link column of texts and gaps and on tables whose
    Entity cells are all texts: there nothing inside the [try] raises, the
    fetcher catching its own exceptions.  [Sidebar] below has the other
    cells and the handler of lines 105-108. *)
Definition resolve_countries (links : list (option string)) : list string :=
  match scan links with
  | [] => FALLBACK_COUNTRIES
  | countries => countries
  end.

End Resolve.

End Resolver.

(* ================================================================= *)
(** ** Sidebar: lines 87-108 with their [try] *)

(** The loop of [Resolver] again, on all a cell of the link column and a
    cell of the Entity column can hold, and with the handler of lines
    105-108 around it. *)
Module Sidebar.

Import Frame Fetcher Resolver.
Open Scope string_scope.

(** A cell of the link column: NaN, a text, or a value of another type (a
    number, a date), which has no method [strip]. *)
Inductive LinkCell :=
  | NoLink
  | TextLink (url : string)
  | OtherLink.

(** A name on the list of countries; [None] is the NaN that stands for
    empty Entity cells. *)
Definition Country := option string.

(** What one pass of the loop body does. *)
Inductive Pass :=
  | Next                              (* on to the next link *)
  | Break (countries : list Country)  (* line 99 *)
  | Raise.                            (* an exception reaches line 105 *)

(** Line 97.  The distinct Entity values are sorted with [<]; a NaN beside
    a text cannot be compared with it and [sorted] raises TypeError; a NaN
    alone is a list of one. *)
Definition sorted_entities (first_data : DataFrame)
  : option (list Country) :=
  let texts := unique (map Entity (rows first_data)) in
  if blank_entity first_data then
    match texts with
    | [] => Some [None]
    | _ :: _ => None
    end
  else Some (map Some (sorted texts)).

Section Sidebar.

Variable requests_get : string -> option Response.
Variable read_csv : string -> option DataFrame.

(** Lines 93-99 for one cell. *)
Definition pass (cell : LinkCell) : Pass :=
  match cell with
  | NoLink => Next
  | OtherLink => Raise
  | TextLink url =>
      if negb (Text.strip url =? "") then
        match fetch_country_data requests_get read_csv url with
        | Data first_data =>
            if Text.mem "Entity" (columns first_data) then
              match sorted_entities first_data with
              | Some countries => Break countries
              | None => Raise
              end
            else Next
        | _ => Next
        end
      else Next
  end.

(** Lines 92-99: [None] when an exception leaves the loop, else the value
    of [countries] after it. *)
Fixpoint loop (cells : list LinkCell) : option (list Country) :=
  match cells with
  | [] => Some []
  | cell :: rest =>
      match pass cell with
      | Next => loop rest
      | Break countries => Some countries
      | Raise => None
      end
  end.

(** Lines 87-108. *)
Definition countries (cells : list LinkCell) : list Country :=
  match loop cells with
  | None => map Some FALLBACK_COUNTRIES          (* line 108 *)
  | Some [] => map Some FALLBACK_COUNTRIES       (* line 104 *)
  | Some found => found
  end.

(** The loop goes past the cell: nothing in it, a blank text, or a link
    that yields no table with an Entity column. *)
Definition passed_over (cell : LinkCell) : Prop :=
  match cell with
  | NoLink => True
  | TextLink url =>
      Text.strip url = "" \/ probe requests_get read_csv (Some url) = None
  | OtherLink => False
  end.

End Sidebar.

(** A text link of ASCII characters, where [Text.strip] is [str.strip]. *)
Definition ascii_cell (cell : LinkCell) : bool :=
  match cell with
  | TextLink url => Text.is_ascii url
  | _ => true
  end.

(** The cells of a link column that holds texts and gaps only. *)
Definition cell_of (url : option string) : LinkCell :=
  match url with
  | None => NoLink
  | Some u => TextLink u
  end.

End Sidebar.

(* ================================================================= *)
(** ** Vocabulary of the properties *)

Module Vocabulary.

Import Frame.
Open Scope string_scope.

(** Two characters that are the same letter: the same character, or a
    capital of the alphabet and its small form, 32 places further. *)
Definition capital (c : ascii) : Prop :=
  (65 <= nat_of_ascii c <= 90)%nat.

Definition same_letter (c d : ascii) : Prop :=
  c = d \/
  (capital c /\ nat_of_ascii d = (nat_of_ascii c + 32)%nat) \/
  (capital d /\ nat_of_ascii c = (nat_of_ascii d + 32)%nat).

(** Two texts that differ in letter case at most. *)
Inductive same_but_case : string -> string -> Prop :=
  | same_empty : same_but_case "" ""
  | same_next c d s t :
      same_letter c d -> same_but_case s t ->
      same_but_case (String c s) (String d t).

(** [col] contains the metric name, letter case aside: some stretch of
    [col] is the metric name but for the case of its letters. *)
Definition names_metric (selected_metric col : string) : Prop :=
  exists before stretch after,
    col = before ++ stretch ++ after /\
    same_but_case stretch selected_metric.



(** [r] is the record of [part] that carries the greatest year; when
    several do, the first in row order. *)
Definition current (part : list Row) (r : Row) : Prop :=
  exists before after,
    part = (before ++ r :: after)%list /\
    (forall x, In x part -> (Year x <= Year r)%Z) /\
    (forall x, In x before -> Year x <> Year r).

(** Ascending by entity, then by year. *)
Definition entity_then_year (x y : Triple) : Prop :=
  match x, y with
  | (e1, y1, _), (e2, y2, _) =>
      String_as_OT.lt e1 e2 \/ (e1 = e2 /\ (y1 <= y2)%Z)
  end.

(** The row set has a valid observation in column [c]. *)
Definition observed (data : DataFrame) (c : string) (part : list Row) : Prop :=
  exists r q, In r part /\ at_column data c r = Some q.

(** The mean of the valid observations as a number, without rounding. *)
Definition exact_mean (s : Series.t) : option Q :=
  match Series.dropna s with
  | [] => None
  | l => Some (Series.sum l / Series.count l)%Q
  end.

(** The records of a row set whose cell in column [c] is valid. *)
Definition valid_rows (data : DataFrame) (c : string) (part : list Row)
  : list Row :=
  filter (fun r => match at_column data c r with Some _ => true | None => false end)
         part.

End Vocabulary.

(* ================================================================= *)
(** ** Sample inputs *)

Module Samples.

Import Frame Catalog Fetcher.
Open Scope Z_scope.
Open Scope string_scope.

(** The table of the worked example. *)
Definition gdp_table : DataFrame := {|
  columns := ["Entity"; "Code"; "Year"; "GDP per capita"];
  rows := [ mkRow "Wakanda" 2000 [None; Some 100%Q];
            mkRow "Wakanda" 2010 [None; Some 200%Q];
            mkRow "Wakanda" 2020 [None; Some 150%Q];
            mkRow "Genovia" 2005 [None; Some 50%Q];
            mkRow "Genovia" 2015 [None; Some 80%Q] ];
  blank_entity := false |}.

(** Wakanda has no observation for 2000. *)
Definition gap_table : DataFrame := {|
  columns := ["Entity"; "Year"; "GDP per capita"];
  rows := [ mkRow "Wakanda" 2000 [None];
            mkRow "Wakanda" 2010 [Some 5%Q];
            mkRow "Genovia" 2005 [Some 1%Q] ];
  blank_entity := false |}.


(** Wakanda has records and no observation at all. *)
Definition blank_table : DataFrame := {|
  columns := ["Entity"; "Year"; "GDP per capita"];
  rows := [ mkRow "Wakanda" 2000 [None];
            mkRow "Wakanda" 2010 [None];
            mkRow "Genovia" 2005 [Some 1%Q] ];
  blank_entity := false |}.

(** Identifier columns only. *)
Definition bare_table : DataFrame := {|
  columns := ["Entity"; "Code"; "Year"];
  rows := [ mkRow "Wakanda" 2000 [None];
            mkRow "Genovia" 2005 [None] ];
  blank_entity := false |}.

(** The decimal 0.1 as the reader stores it: the nearest binary64 value. *)
Definition tenth : Q := 3602879701896397 # 36028797018963968.


(** The table of the worked example with one more record, whose Entity
    cell is empty. *)
Definition torn_table : DataFrame := {|
  columns := ["Entity"; "Code"; "Year"; "GDP per capita"];
  rows := [ mkRow "Wakanda" 2000 [None; Some 100%Q];
            mkRow "Wakanda" 2010 [None; Some 200%Q];
            mkRow "Wakanda" 2020 [None; Some 150%Q];
            mkRow "Genovia" 2005 [None; Some 50%Q];
            mkRow "Genovia" 2015 [None; Some 80%Q] ];
  blank_entity := true |}.

(** A header and no record. *)
Definition header_only : DataFrame := {|
  columns := ["Entity"; "Code"; "Year"; "GDP per capita"];
  rows := [];
  blank_entity := false |}.

(** The CSV text of the worked example, and the same with one more
    record, whose Entity cell is empty. *)
Definition nl : string := String "010"%char "".

Definition gdp_body : string :=
  "Entity,Code,Year,GDP per capita" ++ nl ++
  "Wakanda,,2000,100" ++ nl ++
  "Wakanda,,2010,200" ++ nl ++
  "Wakanda,,2020,150" ++ nl ++
  "Genovia,,2005,50" ++ nl ++
  "Genovia,,2015,80" ++ nl.

Definition torn_body : string := gdp_body ++ ",,2021,7" ++ nl.

(** A network and a reader with canned answers: one link answers with an
    empty body, which the reader rejects; one with a header and no record;
    one with the table of the worked example; one with status 404; any
    other request raises. *)
Definition canned_get (url : string) : option Response :=
  if url =? "https://example.org/empty.csv" then Some (mkResponse 200 "")
  else if url =? "https://example.org/header.csv"
       then Some (mkResponse 200 "Entity,Code,Year,GDP per capita")
  else if url =? "https://example.org/gdp.csv" then Some (mkResponse 200 gdp_body)
  else if url =? "https://example.org/gone.csv" then Some (mkResponse 404 "")
  else None.

Definition canned_read_csv (body : string) : option DataFrame :=
  if body =? "Entity,Code,Year,GDP per capita" then Some header_only
  else if body =? gdp_body then Some gdp_table
  else None.

(** The reader on the two bodies with data. *)
Definition with_data (body : string) : option DataFrame :=
  if body =? gdp_body then Some gdp_table
  else if body =? torn_body then Some torn_table
  else None.

(** The reader of [Reader] over it. *)
Definition canned_reader : string -> option DataFrame :=
  Reader.read_csv with_data.

(** The canned network with one more link, to the torn table. *)
Definition torn_get (url : string) : option Response :=
  if url =? "https://example.org/torn.csv" then Some (mkResponse 200 torn_body)
  else canned_get url.

(** A catalog workbook: the second record has no link and the third a
    blank one. *)
Definition catalog_book : Workbook :=
  Book [("Sheet1",
         {| titles := ["metric"; "data link full column names"];
            lines := [ ["GDP per capita"; "https://example.org/gdp.csv"];
                       ["Life expectancy"; ""];
                       ["Population"; "   "];
                       ["Literacy"; "https://example.org/gone.csv"] ] |})].

(** What is left of it once loaded. *)
Definition loaded_catalog : Table := {|
  header := ["metric"; "data link full column names"];
  records := [ [Some "GDP per capita"; Some "https://example.org/gdp.csv"];
               [Some "Population"; Some "   "];
               [Some "Literacy"; Some "https://example.org/gone.csv"] ] |}.

End Samples.

(* ================================================================= *)
(** ** Chart: the line chart, lines 275-286 and 306-307 *)

Module Chart.

Import Frame Comparison.

(** The points of one line: year and observation of each record. *)
Definition points (data : DataFrame) (col : string) (time : list Row)
  : list (Z * option Q) :=
  map (fun r => (Year r, at_column data col r)) time.

Inductive LineChart :=
  | Plotted (line_a line_b : list (Z * option Q))   (* lines 283-286 *)
  | Insufficient.                                   (* line 307 *)

(** Lines 275-286 and 306-307, after a successful comparison: which branch
    of line 278 is taken and, in the first, the points handed to the two
    calls of [plot].  The limits of the vertical axis (lines 296-299) are
    arithmetic on the scalars of the library and are left out. *)
Definition line_chart (data : DataFrame) (res : Result) : LineChart :=
  match country_a_time res, country_b_time res with
  | _ :: _, _ :: _ =>
      Plotted (points data (metric_column res) (country_a_time res))
              (points data (metric_column res) (country_b_time res))
  | _, _ => Insufficient
  end.

End Chart.

(* ================================================================= *)
(** ** Page: the two selectors, lines 110-118 *)

Module Page.

Open Scope string_scope.



End Page.

(* ================================================================= *)
(** ** Memo: [st.cache_data] around the fetcher, line 48 *)

Module Memo.

Import Frame Fetcher Resolver.
Open Scope string_scope.

(** What the session remembers: the value returned for each link fetched
    so far, latest first, and the requests sent to the network, latest
    first. *)
Record Store := mkStore {
  cache : list (string * Fetched);
  requested : list string
}.

Definition start : Store := {| cache := []; requested := [] |}.

(** The entries and the requests go together: one entry for each request,
    no link requested twice. *)
Definition tidy (s : Store) : Prop :=
  map fst (cache s) = requested s /\ NoDup (requested s).

Fixpoint recall (url : string) (entries : list (string * Fetched))
  : option Fetched :=
  match entries with
  | [] => None
  | (u, r) :: rest => if u =? url then Some r else recall url rest
  end.

(** Every entry holds what [answer] gives for its link. *)
Definition agrees (answer : string -> Fetched) (s : Store) : Prop :=
  forall u r, recall u (cache s) = Some r -> r = answer u.

Section Cached.

(** The network may answer the same link differently from one request to
    the next: [network n] is how it answers the request sent after [n]
    earlier ones. *)
Variable network : nat -> string -> option Response.
Variable read_csv : string -> option DataFrame.

(** The decorated function: the body runs when the link has no entry. *)
Definition fetch_cached (url : string) (s : Store) : Fetched * Store :=
  match recall url (cache s) with
  | Some r => (r, s)
  | None =>
      let r := fetch_country_data (network (List.length (requested s)))
                                  read_csv url in
      (r, {| cache := (url, r) :: cache s; requested := url :: requested s |})
  end.

(** A run of calls, the store threaded through. *)
Fixpoint fetch_all (urls : list string) (s : Store) : Store :=
  match urls with
  | [] => s
  | url :: rest => fetch_all rest (snd (fetch_cached url s))
  end.

(** The loop of lines 92-99 with the store threaded through. *)
Fixpoint scan_cached (links : list (option string)) (s : Store)
  : list string * Store :=
  match links with
  | [] => ([], s)
  | url :: rest =>
      match url with
      | Some u =>
          if negb (Text.strip u =? "") then
            let (first_data, s') := fetch_cached u s in
            match first_data with
            | Data d =>
                if Text.mem "Entity" (columns d) then (entities d, s')
                else scan_cached rest s'
            | _ => scan_cached rest s'
            end
          else scan_cached rest s
      | None => scan_cached rest s
      end
  end.

End Cached.

End Memo.

(* ================================================================= *)
(** * Properties *)

Unset Implicit Arguments.

(** ** Text *)

Module TextFacts.

Import Text.
Open Scope string_scope.

Lemma prefix_iff (p s : string) :
  String.prefix p s = true <-> exists rest, s = p ++ rest.
Proof.
  revert s; induction p as [|c p IH]; intros s.
  - destruct s; simpl; split; eauto.
  - destruct s as [|d s]; simpl.
    + split; [discriminate | intros [rest H]; discriminate].
    + destruct (ascii_dec c d) as [->|Hcd].
      * rewrite IH. split; intros [rest H]; exists rest.
        -- now rewrite H.
        -- now injection H.
      * split; [discriminate | intros [rest H]; injection H; intros; congruence].
Qed.

(** [contains] decides "occurs somewhere inside". *)
Lemma contains_iff (needle hay : string) :
  contains needle hay = true <->
  exists before after, hay = before ++ needle ++ after.
Proof.
  induction hay as [|c hay IH]; cbn [contains].
  - rewrite orb_false_r, prefix_iff. split.
    + intros [rest H]. now exists "", rest.
    + intros [before [after H]]. destruct before; simpl in H.
      * now exists after.
      * discriminate.
  - rewrite orb_true_iff, prefix_iff, IH. split.
    + intros [[rest H] | [before [after H]]].
      * now exists "", rest.
      * exists (String c before), after. simpl. now rewrite H.
    + intros [before [after H]]. destruct before as [|d before]; simpl in H.
      * left. now exists after.
      * right. injection H as _ H. now exists before, after.
Qed.

Lemma mem_iff (x : string) (xs : list string) : mem x xs = true <-> In x xs.
Proof.
  unfold mem. rewrite existsb_exists. split.
  - intros [y [Hy E]]. apply String.eqb_eq in E. now subst.
  - intros H. exists x. split; [assumption | apply String.eqb_refl].
Qed.

(** *** Letter case *)

Lemma capital_iff c :
  ((65 <=? nat_of_ascii c)%nat && (nat_of_ascii c <=? 90)%nat) = true
  <-> Vocabulary.capital c.
Proof.
  unfold Vocabulary.capital.
  rewrite andb_true_iff, Nat.leb_le, Nat.leb_le. tauto.
Qed.

Lemma nat_of_ascii_inj c d : nat_of_ascii c = nat_of_ascii d -> c = d.
Proof.
  intros H. rewrite <- (ascii_nat_embedding c), <- (ascii_nat_embedding d).
  now rewrite H.
Qed.

Lemma lower_of_capital c :
  Vocabulary.capital c ->
  nat_of_ascii (lower_ascii c) = (nat_of_ascii c + 32)%nat.
Proof.
  intros H. unfold lower_ascii. rewrite (proj2 (capital_iff c) H).
  apply nat_ascii_embedding. unfold Vocabulary.capital in H. lia.
Qed.

Lemma lower_of_other c : ~ Vocabulary.capital c -> lower_ascii c = c.
Proof.
  intros H. unfold lower_ascii.
  destruct ((65 <=? nat_of_ascii c)%nat && (nat_of_ascii c <=? 90)%nat) eqn:E;
    [| reflexivity].
  apply capital_iff in E. contradiction.
Qed.

Lemma capital_dec c : Vocabulary.capital c \/ ~ Vocabulary.capital c.
Proof. unfold Vocabulary.capital. lia. Qed.

(** [lower] sends two characters to the same one exactly when they are the
    same letter. *)
Lemma lower_ascii_same c d :
  lower_ascii c = lower_ascii d <-> Vocabulary.same_letter c d.
Proof.
  unfold Vocabulary.same_letter.
  destruct (capital_dec c) as [Hc | Hc], (capital_dec d) as [Hd | Hd].
  - split.
    + intros H. left. apply nat_of_ascii_inj.
      apply (f_equal nat_of_ascii) in H.
      rewrite !lower_of_capital in H by assumption. lia.
    + intros [-> | [[_ H] | [_ H]]]; [reflexivity | |];
        unfold Vocabulary.capital in Hc, Hd; lia.
  - rewrite (lower_of_other d Hd). split.
    + intros H. right. left. split; [exact Hc |].
      rewrite <- H. now apply lower_of_capital.
    + intros [-> | [[_ H] | [Hd' _]]]; [contradiction | | contradiction].
      apply nat_of_ascii_inj. now rewrite lower_of_capital.
  - rewrite (lower_of_other c Hc). split.
    + intros H. right. right. split; [exact Hd |].
      rewrite H. now apply lower_of_capital.
    + intros [-> | [[Hc' _] | [_ H]]]; [contradiction | contradiction |].
      apply nat_of_ascii_inj. now rewrite lower_of_capital.
  - rewrite (lower_of_other c Hc), (lower_of_other d Hd). split.
    + now left.
    + intros [H | [[Hc' _] | [Hd' _]]]; [exact H | contradiction | contradiction].
Qed.

Lemma lower_same s t :
  lower s = lower t <-> Vocabulary.same_but_case s t.
Proof.
  revert t. induction s as [|c s IH]; intros [|d t]; simpl.
  - split; [constructor | reflexivity].
  - split; [discriminate | intros H; inversion H].
  - split; [discriminate | intros H; inversion H].
  - split.
    + intros H. injection H as Hc Hs. constructor.
      * now apply lower_ascii_same.
      * now apply IH.
    + intros H. inversion H as [|? ? ? ? Hc Hs]; subst.
      apply lower_ascii_same in Hc. apply IH in Hs. now rewrite Hc, Hs.
Qed.

Lemma lower_app s t : lower (s ++ t) = lower s ++ lower t.
Proof. induction s as [|c s IH]; simpl; [reflexivity | now rewrite IH]. Qed.

Lemma lower_app_inv s x y :
  lower s = x ++ y ->
  exists s1 s2, s = s1 ++ s2 /\ lower s1 = x /\ lower s2 = y.
Proof.
  revert s. induction x as [|c x IH]; intros s H; simpl in H.
  - exists "", s. auto.
  - destruct s as [|d s]; simpl in H; [discriminate |].
    injection H as Hc Hs. destruct (IH s Hs) as (s1 & s2 & -> & H1 & H2).
    exists (String d s1), s2. simpl. rewrite Hc, H1. auto.
Qed.

(** The test of line 157 is "contains the name, letter case aside". *)
Lemma contains_lower_iff m col :
  contains (lower m) (lower col) = true <-> Vocabulary.names_metric m col.
Proof.
  rewrite contains_iff. unfold Vocabulary.names_metric. split.
  - intros (x & y & H).
    destruct (lower_app_inv _ _ _ H) as (before & tl & -> & _ & Ht).
    destruct (lower_app_inv _ _ _ Ht) as (stretch & after & -> & Hs & _).
    exists before, stretch, after. split; [reflexivity | now apply lower_same].
  - intros (before & stretch & after & -> & Hs). apply lower_same in Hs.
    exists (lower before), (lower after). now rewrite !lower_app, Hs.
Qed.

End TextFacts.

(** ** Sorting *)

Section SortingFacts.

Variable A : Type.
Variable leb : A -> A -> bool.

Let le (x y : A) : Prop := leb x y = true.

Lemma insert_perm (x : A) (l : list A) : Permutation (insert leb x l) (x :: l).
Proof.
  induction l as [|y l IH]; simpl.
  - apply Permutation_refl.
  - destruct (leb x y).
    + apply Permutation_refl.
    + apply perm_trans with (y :: x :: l).
      * now apply perm_skip.
      * apply perm_swap.
Qed.

Lemma sort_perm (l : list A) : Permutation (sort leb l) l.
Proof.
  induction l as [|x l IH]; simpl.
  - apply perm_nil.
  - apply perm_trans with (x :: sort leb l).
    + apply insert_perm.
    + now apply perm_skip.
Qed.

Lemma sort_length (l : list A) : List.length (sort leb l) = List.length l.
Proof. apply Permutation_length, sort_perm. Qed.

Lemma sort_In (l : list A) (x : A) : In x (sort leb l) <-> In x l.
Proof.
  split; apply Permutation_in; [ | apply Permutation_sym ]; apply sort_perm.
Qed.

Hypothesis leb_total : forall x y, leb x y = true \/ leb y x = true.

Lemma insert_hd (x a : A) (l : list A) :
  le a x -> HdRel le a l -> HdRel le a (insert leb x l).
Proof.
  intros Hax Hl. destruct l as [|y l]; simpl.
  - now constructor.
  - destruct (leb x y); constructor; [assumption | now inversion Hl].
Qed.

Lemma insert_sorted (x : A) (l : list A) :
  Sorted le l -> Sorted le (insert leb x l).
Proof.
  induction 1 as [|y l Hs IH Hhd]; simpl.
  - repeat constructor.
  - destruct (leb x y) eqn:E.
    + repeat constructor; assumption.
    + constructor; [assumption |].
      apply insert_hd; [ | assumption].
      destruct (leb_total x y) as [H | H]; [congruence | exact H].
Qed.

Lemma sort_sorted (l : list A) : Sorted le (sort leb l).
Proof.
  induction l as [|x l IH]; simpl.
  - constructor.
  - now apply insert_sorted.
Qed.

Hypothesis leb_trans : forall x y z, leb x y = true -> leb y z = true -> leb x z = true.

Lemma sort_strongly_sorted (l : list A) :
  StronglySorted (fun x y => leb x y = true) (sort leb l).
Proof.
  apply Sorted_StronglySorted.
  - intros x y z. apply leb_trans.
  - apply sort_sorted.
Qed.

End SortingFacts.

(** ** The two orders *)

Module OrderFacts.

Import Frame.

Lemma compare_refl (s : string) : String.compare s s = Eq.
Proof. now apply String_as_OT.cmp_eq. Qed.

Lemma compare_lt_trans (x y z : string) :
  String.compare x y = Lt -> String.compare y z = Lt -> String.compare x z = Lt.
Proof.
  intros H1 H2. apply String_as_OT.cmp_lt.
  apply String_as_OT.cmp_lt in H1. apply String_as_OT.cmp_lt in H2.
  eapply String_as_OT.lt_trans; eassumption.
Qed.

Lemma compare_gt_lt (x y : string) :
  String.compare x y = Gt -> String.compare y x = Lt.
Proof.
  intros H. pose proof (String_as_OT.cmp_antisym y x) as E.
  unfold String_as_OT.cmp in E. rewrite H in E. exact E.
Qed.

Lemma compare_eq (x y : string) : String.compare x y = Eq -> x = y.
Proof. apply String_as_OT.cmp_eq. Qed.

Lemma string_leb_trans (x y z : string) :
  String.leb x y = true -> String.leb y z = true -> String.leb x z = true.
Proof.
  unfold String.leb.
  destruct (String.compare x y) eqn:Exy; try discriminate;
  destruct (String.compare y z) eqn:Eyz; try discriminate; intros _ _.
  - apply compare_eq in Exy, Eyz. subst. now rewrite compare_refl.
  - apply compare_eq in Exy. subst. now rewrite Eyz.
  - apply compare_eq in Eyz. subst. now rewrite Exy.
  - now rewrite (compare_lt_trans _ _ _ Exy Eyz).
Qed.

Lemma key_leb_total (x y : Triple) : key_leb x y = true \/ key_leb y x = true.
Proof.
  destruct x as [[e1 y1] v1], y as [[e2 y2] v2]. simpl.
  destruct (String.compare e1 e2) eqn:E.
  - apply compare_eq in E. subst. rewrite compare_refl.
    destruct (Z.leb_spec y1 y2); [now left | right; apply Z.leb_le; lia].
  - now left.
  - right. now rewrite (compare_gt_lt _ _ E).
Qed.

Lemma key_leb_trans (x y z : Triple) :
  key_leb x y = true -> key_leb y z = true -> key_leb x z = true.
Proof.
  destruct x as [[e1 y1] v1], y as [[e2 y2] v2], z as [[e3 y3] v3]. simpl.
  destruct (String.compare e1 e2) eqn:E12; try discriminate;
  destruct (String.compare e2 e3) eqn:E23; try discriminate; intros H1 H2.
  - apply compare_eq in E12, E23. subst. rewrite compare_refl.
    apply Z.leb_le. apply Z.leb_le in H1, H2. lia.
  - apply compare_eq in E12. subst. now rewrite E23.
  - apply compare_eq in E23. subst. now rewrite E12.
  - now rewrite (compare_lt_trans _ _ _ E12 E23).
Qed.

End OrderFacts.

(** ** Numpy *)

Module NumpyFacts.

Import Numpy.

Lemma pairwise_sum_step fuel a :
  pairwise_sum (S fuel) a
  = if (List.length a <? 8)%nat then sum_few a
    else if (List.length a <=? 128)%nat then sum_block a
    else
      let n2 := (List.length a / 2 - (List.length a / 2) mod 8)%nat in
      Float64.add (pairwise_sum fuel (firstn n2 a))
                  (pairwise_sum fuel (skipn n2 a)).
Proof. reflexivity. Qed.

Lemma pairwise_sum_short fuel a :
  (List.length a < 8)%nat -> pairwise_sum fuel a = sum_few a.
Proof.
  intros H. apply Nat.ltb_lt in H.
  destruct fuel; [simpl | rewrite pairwise_sum_step]; now rewrite H.
Qed.

(** The sum never runs out of fuel: any fuel from the length of the
    array on gives the same number. *)
Lemma pairwise_sum_enough fuel :
  forall a fuel',
    (List.length a <= fuel)%nat -> (List.length a <= fuel')%nat ->
    pairwise_sum fuel a = pairwise_sum fuel' a.
Proof.
  induction fuel as [|fuel IH]; intros a fuel' H H'.
  - rewrite !pairwise_sum_short; [reflexivity | lia | lia].
  - destruct fuel' as [|fuel'].
    + rewrite !pairwise_sum_short; [reflexivity | lia | lia].
    + rewrite !pairwise_sum_step.
      destruct (List.length a <? 8)%nat eqn:E8; [reflexivity |].
      destruct (List.length a <=? 128)%nat eqn:E128; [reflexivity |].
      apply Nat.leb_gt in E128. cbv zeta.
      set (n := List.length a) in *.
      pose proof (Nat.div_mod_eq n 2) as D2.
      pose proof (Nat.mod_upper_bound n 2) as M2.
      pose proof (Nat.div_mod_eq (n / 2) 8) as D8.
      pose proof (Nat.mod_upper_bound (n / 2) 8) as M8.
      assert (Hn2 : (0 < n / 2 - (n / 2) mod 8 < n)%nat) by lia.
      f_equal; apply IH.
      * rewrite length_firstn. fold n. lia.
      * rewrite length_firstn. fold n. lia.
      * rewrite length_skipn. fold n. lia.
      * rewrite length_skipn. fold n. lia.
Qed.

(** Fewer than eight numbers are added one after the other. *)
Lemma sum_of_few a :
  (List.length a < 8)%nat -> sum a = fold_left Float64.add a 0%Q.
Proof. intros H. unfold sum. now rewrite pairwise_sum_short. Qed.

(** Three times 0.1 is rounded up: the sum is 0.30000000000000004. *)
Example sum_of_tenths :
  sum [Samples.tenth; Samples.tenth; Samples.tenth]
  = (1351079888211149 # 4503599627370496)%Q /\
  Float64.round (1 # 10) = Samples.tenth.
Proof. split; vm_compute; reflexivity. Qed.

End NumpyFacts.

(** ** Series *)

Module SeriesFacts.

Import Series.
Open Scope Q_scope.

Lemma In_dropna (s : t) (q : Q) : In q (dropna s) <-> In (Some q) s.
Proof.
  induction s as [|[x|] s IH]; simpl.
  - tauto.
  - rewrite IH. split; intros [H | H]; auto; left; congruence.
  - rewrite IH. split; [auto | intros [H | H]; [discriminate | assumption]].
Qed.

Lemma dropna_all_missing (s : t) :
  (forall v, In v s -> v = None) -> dropna s = [].
Proof.
  induction s as [|[x|] s IH]; simpl; intros H.
  - reflexivity.
  - specialize (H (Some x) (or_introl eq_refl)). discriminate.
  - apply IH. intros v Hv. apply H. now right.
Qed.

Lemma fold_max_init (l : list Q) : forall q, q <= fold_left Qmax l q.
Proof.
  induction l as [|a l IH]; intros q; simpl.
  - apply Qle_refl.
  - eapply Qle_trans; [apply Q.le_max_l | apply IH].
Qed.

Lemma fold_max_upper (l : list Q) :
  forall q x, In x l -> x <= fold_left Qmax l q.
Proof.
  induction l as [|a l IH]; intros q x Hx; [destruct Hx |].
  simpl; destruct Hx as [-> | Hx].
  - eapply Qle_trans; [apply Q.le_max_r | apply fold_max_init].
  - now apply IH.
Qed.

Lemma fold_max_attained (l : list Q) :
  forall q, In (fold_left Qmax l q) (q :: l).
Proof.
  induction l as [|a l IH]; intros q; simpl.
  - now left.
  - destruct (IH (Qmax q a)) as [H | H].
    + rewrite <- H. unfold Qmax, GenericMinMax.gmax.
      destruct (q ?= a); auto.
    + auto.
Qed.

Lemma fold_min_init (l : list Q) : forall q, fold_left Qmin l q <= q.
Proof.
  induction l as [|a l IH]; intros q; simpl.
  - apply Qle_refl.
  - eapply Qle_trans; [apply IH | apply Q.le_min_l].
Qed.

Lemma fold_min_lower (l : list Q) :
  forall q x, In x l -> fold_left Qmin l q <= x.
Proof.
  induction l as [|a l IH]; intros q x Hx; [destruct Hx |].
  simpl; destruct Hx as [-> | Hx].
  - eapply Qle_trans; [apply fold_min_init | apply Q.le_min_r].
  - now apply IH.
Qed.

Lemma fold_min_attained (l : list Q) :
  forall q, In (fold_left Qmin l q) (q :: l).
Proof.
  induction l as [|a l IH]; intros q; simpl.
  - now left.
  - destruct (IH (Qmin q a)) as [H | H].
    + rewrite <- H. unfold Qmin, GenericMinMax.gmin.
      destruct (q ?= a); auto.
    + auto.
Qed.

Lemma count_cons (x : Q) (l : list Q) : count (x :: l) == count l + 1.
Proof.
  unfold count. simpl List.length. rewrite Nat2Z.inj_succ, <- Z.add_1_r.
  rewrite inject_Z_plus. reflexivity.
Qed.

Lemma count_pos (x : Q) (l : list Q) : 0 < count (x :: l).
Proof.
  unfold count. simpl List.length. rewrite Nat2Z.inj_succ.
  change 0 with (inject_Z 0). rewrite <- Zlt_Qlt. lia.
Qed.

Lemma sum_upper (M : Q) (l : list Q) :
  (forall x, In x l -> x <= M) -> sum l <= M * count l.
Proof.
  induction l as [|a l IH]; intros H.
  - unfold count, sum; simpl. rewrite Qmult_0_r. apply Qle_refl.
  - rewrite count_cons. simpl sum.
    assert (Ha : a <= M) by (apply H; now left).
    assert (Hl : sum l <= M * count l) by (apply IH; intros; apply H; now right).
    lra.
Qed.

Lemma sum_lower (m : Q) (l : list Q) :
  (forall x, In x l -> m <= x) -> m * count l <= sum l.
Proof.
  induction l as [|a l IH]; intros H.
  - unfold count, sum; simpl. rewrite Qmult_0_r. apply Qle_refl.
  - rewrite count_cons. simpl sum.
    assert (Ha : m <= a) by (apply H; now left).
    assert (Hl : m * count l <= sum l) by (apply IH; intros; apply H; now right).
    lra.
Qed.

(** The two extremes and the exact mean of a column with a valid
    observation. *)
Lemma reductions_ordered (s : t) (q0 : Q) :
  In (Some q0) s ->
  exists mx mn mu,
    max s = Some mx /\ min s = Some mn /\
    Vocabulary.exact_mean s = Some mu /\
    In (Some mx) s /\ In (Some mn) s /\
    (forall q, In (Some q) s -> mn <= q /\ q <= mx) /\
    mu * count (dropna s) == sum (dropna s) /\
    mn <= mu /\ mu <= mx.
Proof.
  intros Hq0. apply In_dropna in Hq0.
  unfold max, min, Vocabulary.exact_mean.
  assert (Hin : forall q, In (Some q) s <-> In q (dropna s))
    by (intros; symmetry; apply In_dropna).
  destruct (dropna s) as [|q l] eqn:E; [destruct Hq0 |].
  set (mx := fold_left Qmax l q). set (mn := fold_left Qmin l q).
  assert (Hup : forall x, In x (q :: l) -> x <= mx).
  { intros x [<- | Hx]; [apply fold_max_init | now apply fold_max_upper]. }
  assert (Hlo : forall x, In x (q :: l) -> mn <= x).
  { intros x [<- | Hx]; [apply fold_min_init | now apply fold_min_lower]. }
  pose proof (count_pos q l) as Hpos.
  exists mx, mn, (sum (q :: l) / count (q :: l)).
  repeat split.
  - apply Hin, fold_max_attained.
  - apply Hin, fold_min_attained.
  - apply Hlo. now apply Hin.
  - apply Hup. now apply Hin.
  - field. intros H0. rewrite H0 in Hpos. now apply Qlt_irrefl in Hpos.
  - apply Qle_shift_div_l; [assumption | now apply sum_lower].
  - apply Qle_shift_div_r; [assumption | now apply sum_upper].
Qed.

End SeriesFacts.

(** ** Comparison *)

Module ComparisonFacts.

Import Frame Comparison Vocabulary.
Open Scope string_scope.

(** *** How [compare] ends *)

Lemma compare_reaches_report pd data a b m ra rest_a rb rest_b :
  Text.mem "Entity" (columns data) = true ->
  Text.mem "Year" (columns data) = true ->
  of_entity data a = ra :: rest_a ->
  of_entity data b = rb :: rest_b ->
  compare pd data a b m =
    match find_metric_column (columns data) m with
    | None => Failed (ColumnNotFound m)
    | Some col => report pd data col ra rest_a rb rest_b
    end.
Proof.
  intros HE HY Ha Hb. unfold compare. now rewrite HE, HY, Ha, Hb.
Qed.

Lemma compare_Done_inv pd data a b m res :
  compare pd data a b m = Done res ->
  exists col ra rest_a rb rest_b,
    of_entity data a = ra :: rest_a /\
    of_entity data b = rb :: rest_b /\
    find_metric_column (columns data) m = Some col /\
    report pd data col ra rest_a rb rest_b = Done res.
Proof.
  unfold compare.
  destruct (negb _ || negb _); [discriminate |].
  destruct (of_entity data a) as [|ra rest_a]; [discriminate |].
  destruct (of_entity data b) as [|rb rest_b]; [discriminate |].
  destruct (find_metric_column _ _) as [col|]; [| discriminate].
  intros H. now exists col, ra, rest_a, rb, rest_b.
Qed.

Lemma report_Done_inv pd data col ra rest_a rb rest_b res :
  report pd data col ra rest_a rb rest_b = Done res ->
  col <> "Entity" /\ col <> "Year" /\
  latest_value data col (ra :: rest_a) (latest_year ra rest_a) = Some (value_a res) /\
  latest_value data col (rb :: rest_b) (latest_year rb rest_b) = Some (value_b res) /\
  metric_column res = col /\
  latest_year_a res = latest_year ra rest_a /\
  latest_year_b res = latest_year rb rest_b /\
  delta res = (value_b res - value_a res)%Q /\
  country_a_stats res = statistics data col (ra :: rest_a) /\
  country_b_stats res = statistics data col (rb :: rest_b) /\
  country_a_time res = dropna data col (ra :: rest_a) /\
  country_b_time res = dropna data col (rb :: rest_b) /\
  combined_data res = combine data col (ra :: rest_a) (rb :: rest_b).
Proof.
  unfold report.
  destruct (col =? "Entity") eqn:EE; [discriminate |].
  destruct (statistics_raise pd data col (ra :: rest_a)
            || statistics_raise pd data col (rb :: rest_b)); [discriminate |].
  destruct (latest_value data col (ra :: rest_a) _) as [va|]; [| discriminate].
  destruct (latest_value data col (rb :: rest_b) _) as [vb|]; [| discriminate].
  destruct (col =? "Year") eqn:EY; [discriminate |].
  intros H. injection H as <-. simpl.
  apply String.eqb_neq in EE, EY. repeat split; assumption.
Qed.

Lemma report_Done_quiet pd data col ra rest_a rb rest_b res :
  report pd data col ra rest_a rb rest_b = Done res ->
  statistics_raise pd data col (ra :: rest_a) = false /\
  statistics_raise pd data col (rb :: rest_b) = false.
Proof.
  unfold report.
  destruct (col =? "Entity"); [discriminate |].
  destruct (statistics_raise pd data col (ra :: rest_a));
    destruct (statistics_raise pd data col (rb :: rest_b));
    simpl; try discriminate. auto.
Qed.




Lemma observed_or_not data col part :
  observed data col part \/ (forall x, In x part -> at_column data col x = None).
Proof.
  induction part as [|r part [(x & q & Hx & Hq) | IH]].
  - right. intros x [].
  - left. exists x, q. split; [now right | exact Hq].
  - destruct (at_column data col r) as [q|] eqn:E.
    + left. exists r, q. split; [now left | exact E].
    + right. intros x [<- | Hx]; [exact E | now apply IH].
Qed.

(** *** Column resolution *)



Lemma names_metric_iff m col :
  Text.contains (Text.lower m) (Text.lower col) = true <-> names_metric m col.
Proof. apply TextFacts.contains_lower_iff. Qed.



(** *** The worked example *)

Import Samples.

(** C1.  On the table with Wakanda (2000: 100, 2010: 200, 2020: 150) and
    Genovia (2005: 50, 2015: 80), comparing Wakanda with Genovia on
    "GDP per capita" succeeds and shows: current values 150 (year 2020) and
    80 (year 2015); for Wakanda maximum 200 in 2010, minimum 100 in 2000,
    mean 150; for Genovia maximum 80 in 2015, minimum 50 in 2005, mean 65;
    and the delta, Genovia's current value minus Wakanda's, -70. *)
Theorem worked_example pd :
  exists res,
    compare pd gdp_table "Wakanda" "Genovia" "GDP per capita" = Done res /\
    value_a res = 150%Q /\ latest_year_a res = 2020%Z /\
    value_b res = 80%Q /\ latest_year_b res = 2015%Z /\
    Stats.max (country_a_stats res) = Some 200%Q /\
    Stats.max_year (country_a_stats res) = Some 2010%Z /\
    Stats.min (country_a_stats res) = Some 100%Q /\
    Stats.min_year (country_a_stats res) = Some 2000%Z /\
    (exists mu, Stats.mean (country_a_stats res) = Some mu /\ (mu == 150)%Q) /\
    Stats.max (country_b_stats res) = Some 80%Q /\
    Stats.max_year (country_b_stats res) = Some 2015%Z /\
    Stats.min (country_b_stats res) = Some 50%Q /\
    Stats.min_year (country_b_stats res) = Some 2005%Z /\
    (exists mu, Stats.mean (country_b_stats res) = Some mu /\ (mu == 65)%Q) /\
    delta res = (value_b res - value_a res)%Q /\
    (delta res == -70)%Q.
Proof.
  eexists. split; [vm_compute; reflexivity |]. simpl.
  repeat split; try (vm_compute; reflexivity).
  - eexists. split; [vm_compute; reflexivity | reflexivity].
  - eexists. split; [vm_compute; reflexivity | reflexivity].
Qed.

(** *** Countries without records *)

(** C5.  On a table that has the columns Entity and Year, when a selected
    country has no record the comparison ends with the message that names
    that country (the first country when both have none); it ends with a
    message, not an exception, and the header plays no part. *)
Theorem no_data_for_country pd data a b m :
  Text.mem "Entity" (columns data) = true ->
  Text.mem "Year" (columns data) = true ->
  (of_entity data a = [] ->
     compare pd data a b m = Failed (NoDataForCountry a)) /\
  (of_entity data a <> [] -> of_entity data b = [] ->
     compare pd data a b m = Failed (NoDataForCountry b)) /\
  (of_entity data a = [] \/ of_entity data b = [] ->
     exists c, (c = a \/ c = b) /\ of_entity data c = [] /\
               compare pd data a b m = Failed (NoDataForCountry c)).
Proof.
  intros HE HY. unfold compare. rewrite HE, HY. simpl.
  split; [| split].
  - now intros ->.
  - intros Ha ->. destruct (of_entity data a); [contradiction | reflexivity].
  - intros H. destruct (of_entity data a) eqn:Ea.
    + exists a. auto.
    + destruct H as [H | H]; [discriminate |].
      exists b. rewrite H. auto.
Qed.

Lemma no_data_for_country_witness :
  compare Pandas.From3 bare_table "Atlantis" "Genovia" "GDP per capita"
  = Failed (NoDataForCountry "Atlantis") /\
  compare Pandas.From3 bare_table "Wakanda" "Atlantis" "GDP per capita"
  = Failed (NoDataForCountry "Atlantis").
Proof.
  split.
  - apply (proj1 (no_data_for_country Pandas.From3 bare_table "Atlantis"
                    "Genovia" "GDP per capita" eq_refl eq_refl)).
    reflexivity.
  - apply (proj1 (proj2 (no_data_for_country Pandas.From3 bare_table
                           "Wakanda" "Atlantis" "GDP per capita"
                           eq_refl eq_refl))).
    + discriminate.
    + reflexivity.
Defined.

(** *** The metric column *)




(** Letter case aside means that: "gdp" names "GDP per capita", and a
    stretch is found whatever the case of either side. *)
Example names_metric_ignores_case :
  names_metric "gdp" "GDP per capita" /\
  names_metric "PER Capita" "gdp per capita" /\
  ~ names_metric "gdp" "G.D.P. per capita".
Proof.
  split; [| split].
  - exists "", "GDP", " per capita". split; [reflexivity |].
    repeat constructor; right; left; split; (unfold capital; simpl; lia) || reflexivity.
  - apply names_metric_iff. reflexivity.
  - intros H. apply names_metric_iff in H. vm_compute in H. discriminate.
Qed.



(** *** The current value *)

Lemma fold_max_Z_init (l : list Z) : forall y, (y <= fold_left Z.max l y)%Z.
Proof.
  induction l as [|a l IH]; intros y; simpl; [lia |].
  specialize (IH (Z.max y a)). lia.
Qed.

Lemma fold_max_Z_upper (l : list Z) :
  forall y x, In x l -> (x <= fold_left Z.max l y)%Z.
Proof.
  induction l as [|a l IH]; intros y x Hx; [destruct Hx |].
  simpl. destruct Hx as [-> | Hx].
  - pose proof (fold_max_Z_init l (Z.max y x)). lia.
  - now apply IH.
Qed.

Lemma fold_max_Z_attained (l : list Z) :
  forall y, In (fold_left Z.max l y) (y :: l).
Proof.
  induction l as [|a l IH]; intros y; simpl; [now left |].
  destruct (IH (Z.max y a)) as [H | H]; [| auto].
  rewrite <- H. destruct (Z.max_spec y a) as [[_ ->] | [_ ->]]; auto.
Qed.

Lemma latest_year_upper ra rest x :
  In x (ra :: rest) -> (Year x <= latest_year ra rest)%Z.
Proof.
  unfold latest_year. intros [<- | Hx].
  - apply fold_max_Z_init.
  - apply fold_max_Z_upper. now apply in_map.
Qed.

Lemma latest_year_attained ra rest :
  exists x, In x (ra :: rest) /\ Year x = latest_year ra rest.
Proof.
  unfold latest_year.
  destruct (fold_max_Z_attained (map Year rest) (Year ra)) as [H | H].
  - exists ra. split; [now left | exact H].
  - apply in_map_iff in H. destruct H as (x & Hx & Hin).
    exists x. split; [now right | exact Hx].
Qed.

(** The first record of a given year heads the selection of line 173. *)
Lemma first_of_year part y :
  (exists x, In x part /\ Year x = y) ->
  exists before r after rest,
    part = (before ++ r :: after)%list /\ Year r = y /\
    (forall x, In x before -> Year x <> y) /\
    filter (fun x => (Year x =? y)%Z) part = r :: rest.
Proof.
  induction part as [|r part IH]; intros (x & Hx & Hy); [destruct Hx |].
  simpl. destruct (Z.eqb_spec (Year r) y) as [E | E].
  - exists [], r, part. eexists. repeat split; auto.
  - destruct IH as (before & r' & after & rest & -> & Hr' & Hb & Hf).
    + destruct Hx as [-> | Hx]; [contradiction | eauto].
    + exists (r :: before), r', after, rest. repeat split; auto.
      intros z [<- | Hz]; auto.
Qed.

Lemma current_exists ra rest : exists r, current (ra :: rest) r.
Proof.
  destruct (first_of_year _ _ (latest_year_attained ra rest))
    as (before & r & after & tl & Hpart & Hr & Hb & _).
  exists r, before, after. split; [exact Hpart | split].
  - intros x Hx. rewrite Hr. now apply latest_year_upper.
  - intros x Hx. rewrite Hr. now apply Hb.
Qed.

Lemma current_year ra rest r :
  current (ra :: rest) r -> Year r = latest_year ra rest.
Proof.
  intros (before & after & Hpart & Hmax & _).
  assert (Hin : In r (ra :: rest)).
  { rewrite Hpart. apply in_or_app. right. now left. }
  pose proof (latest_year_upper ra rest r Hin) as Hle.
  destruct (latest_year_attained ra rest) as (x & Hx & Hyx).
  specialize (Hmax x Hx). lia.
Qed.

Lemma current_value data col ra rest r :
  current (ra :: rest) r ->
  latest_value data col (ra :: rest) (latest_year ra rest)
  = at_column data col r.
Proof.
  intros Hcur. pose proof (current_year _ _ _ Hcur) as Hy.
  destruct Hcur as (before & after & Hpart & _ & Hb).
  unfold latest_value. rewrite Hpart, filter_app.
  replace (filter (fun r0 => (Year r0 =? latest_year ra rest)%Z) before)
    with (@nil Row).
  - simpl. rewrite Hy, Z.eqb_refl. reflexivity.
  - symmetry. clear Hpart. induction before as [|x before IH]; [reflexivity |].
    simpl. destruct (Z.eqb_spec (Year x) (latest_year ra rest)) as [E | E].
    + exfalso. apply (Hb x); [now left | congruence].
    + apply IH. intros z Hz. apply Hb. now right.
Qed.





(** *** The combined rows *)

Lemma key_leb_iff x y : key_leb x y = true <-> entity_then_year x y.
Proof.
  destruct x as [[e1 y1] v1], y as [[e2 y2] v2]. simpl.
  destruct (String.compare e1 e2) eqn:E.
  - apply OrderFacts.compare_eq in E. subst. rewrite Z.leb_le. split.
    + auto.
    + intros [H | [_ H]]; [| exact H].
      exfalso. now apply (String_as_OT.lt_not_eq _ _ H).
  - split; [| reflexivity]. intros _. left. now apply String_as_OT.cmp_lt.
  - split; [discriminate |]. intros [H | [-> _]].
    + apply String_as_OT.cmp_lt in H. unfold String_as_OT.cmp in H. congruence.
    + rewrite OrderFacts.compare_refl in E. discriminate.
Qed.

Lemma sort_values_sorted l : StronglySorted entity_then_year (sort_values l).
Proof.
  pose proof (sort_strongly_sorted _ key_leb OrderFacts.key_leb_total
                OrderFacts.key_leb_trans l) as H.
  unfold sort_values. induction H as [|x s Hs IH Hx]; constructor.
  - exact IH.
  - eapply Forall_impl; [| exact Hx]. intros y. apply key_leb_iff.
Qed.

(** C2, as the script has it.  The combined rows of a successful comparison
    are all Entity, Year, metric records of the first country followed by
    all those of the second, missing observations included, rearranged in
    ascending order of entity and then year; their number is the sum of the
    two countries' record counts. *)
Theorem combined_data_sorted_union pd data a b m res :
  compare pd data a b m = Done res ->
  Permutation (combined_data res)
              (map (project data (metric_column res)) (of_entity data a) ++
               map (project data (metric_column res)) (of_entity data b)) /\
  StronglySorted entity_then_year (combined_data res) /\
  List.length (combined_data res)
  = (List.length (of_entity data a) + List.length (of_entity data b))%nat.
Proof.
  intros H.
  destruct (compare_Done_inv _ _ _ _ _ _ H)
    as (col & ra & rest_a & rb & rest_b & Ea & Eb & _ & Hr).
  destruct (report_Done_inv _ _ _ _ _ _ _ _ Hr)
    as (_ & _ & _ & _ & Hc & _ & _ & _ & _ & _ & _ & _ & Hcomb).
  rewrite Hcomb, Hc, Ea, Eb. unfold combine, sort_values.
  split; [apply sort_perm | split].
  - apply sort_values_sorted.
  - rewrite sort_length, length_app, !length_map. reflexivity.
Qed.

Lemma combined_data_sorted_union_witness :
  exists res,
    compare Pandas.From3 gap_table "Wakanda" "Genovia" "GDP per capita" = Done res /\
    Permutation (combined_data res)
      (map (project gap_table (metric_column res))
           (of_entity gap_table "Wakanda") ++
       map (project gap_table (metric_column res))
           (of_entity gap_table "Genovia")) /\
    StronglySorted entity_then_year (combined_data res) /\
    List.length (combined_data res)
    = (List.length (of_entity gap_table "Wakanda")
       + List.length (of_entity gap_table "Genovia"))%nat.
Proof.
  eexists. split; [vm_compute; reflexivity |].
  apply (combined_data_sorted_union Pandas.From3 gap_table "Wakanda" "Genovia"
           "GDP per capita").
  vm_compute. reflexivity.
Defined.

(** C2, as the specification states it, fails: Wakanda's record of 2000 has no
    observation and is among the combined rows, which are three, while the
    records with an observation are two. *)
Lemma combined_data_keeps_missing :
  exists res,
    compare Pandas.From3 gap_table "Wakanda" "Genovia" "GDP per capita" = Done res /\
    combined_data res
    = [("Genovia", 2005%Z, Some 1%Q); ("Wakanda", 2000%Z, None);
       ("Wakanda", 2010%Z, Some 5%Q)] /\
    In ("Wakanda", 2000%Z, None) (combined_data res) /\
    List.length (combined_data res) = 3%nat /\
    (List.length (valid_rows gap_table (metric_column res)
                    (of_entity gap_table "Wakanda"))
     + List.length (valid_rows gap_table (metric_column res)
                      (of_entity gap_table "Genovia")))%nat = 2%nat.
Proof.
  eexists. split; [vm_compute; reflexivity |].
  simpl combined_data. simpl metric_column.
  repeat split; try (vm_compute; reflexivity).
  vm_compute. right. now left.
Qed.

(** *** Statistics *)

Lemma In_column data c part v :
  In v (column data c part) <-> exists r, In r part /\ at_column data c r = v.
Proof.
  unfold column. rewrite in_map_iff. split; intros (r & H1 & H2); exists r; auto.
Qed.




(** The statistics of a successful comparison are those of the two row
    sets, and each row set then has a valid observation. *)
Lemma compare_Done_statistics pd data a b m res :
  compare pd data a b m = Done res ->
  country_a_stats res = statistics data (metric_column res) (of_entity data a) /\
  country_b_stats res = statistics data (metric_column res) (of_entity data b) /\
  (exists r, In r (of_entity data a) /\
             at_column data (metric_column res) r = Some (value_a res)) /\
  (exists r, In r (of_entity data b) /\
             at_column data (metric_column res) r = Some (value_b res)).
Proof.
  intros H.
  destruct (compare_Done_inv _ _ _ _ _ _ H)
    as (col & ra & rest_a & rb & rest_b & Ea & Eb & _ & Hr).
  destruct (report_Done_inv _ _ _ _ _ _ _ _ Hr)
    as (_ & _ & Hva & Hvb & Hc & _ & _ & _ & Hsa & Hsb & _).
  rewrite Hc, Ea, Eb. repeat split; try assumption.
  - destruct (current_exists ra rest_a) as [r Hcur].
    rewrite (current_value data col _ _ _ Hcur) in Hva.
    exists r. split; [| exact Hva].
    destruct Hcur as (bf & af & -> & _). apply in_or_app. right. now left.
  - destruct (current_exists rb rest_b) as [r Hcur].
    rewrite (current_value data col _ _ _ Hcur) in Hvb.
    exists r. split; [| exact Hvb].
    destruct Hcur as (bf & af & -> & _). apply in_or_app. right. now left.
Qed.

(** *** A column without observations *)

Lemma statistics_blank data col part :
  (forall r, In r part -> at_column data col r = None) ->
  statistics data col part
  = {| Stats.max := None; Stats.min := None; Stats.mean := None;
       Stats.max_year := None; Stats.min_year := None |}.
Proof.
  intros Hall.
  assert (E : Series.dropna (column data col part) = []).
  { apply SeriesFacts.dropna_all_missing. intros v Hv.
    apply In_column in Hv. destruct Hv as (r & Hr & <-). now apply Hall. }
  unfold statistics, Series.idxmax, Series.idxmin,
    Series.max, Series.min, Series.mean.
  rewrite E. reflexivity.
Qed.




(** The same table under the two versions of the library. *)
Example blank_column_by_version :
  compare Pandas.Before3 blank_table "Wakanda" "Genovia" "GDP per capita"
  = Failed MissingCurrentValue /\
  statistics blank_table "GDP per capita" (of_entity blank_table "Wakanda")
  = {| Stats.max := None; Stats.min := None; Stats.mean := None;
       Stats.max_year := None; Stats.min_year := None |} /\
  compare Pandas.From3 blank_table "Wakanda" "Genovia" "GDP per capita"
  = Raised ValueError.
Proof. repeat split. Qed.

End ComparisonFacts.

(** ** Catalog *)

Module CatalogFacts.

Import Catalog.
Open Scope string_scope.

Lemma parse_cell_not_empty text link : parse_cell text = Some link -> link <> "".
Proof.
  unfold parse_cell. destruct (Text.mem text STR_NA_VALUES) eqn:E; [discriminate |].
  intros H. injection H as <-. intros ->. discriminate.
Qed.

Lemma clean_Dataset file df :
  clean file = Dataset df ->
  exists sheets sh i,
    file = Book sheets /\
    find_sheet "Sheet1" sheets = Some sh /\
    position LINK (titles sh) = Some i /\
    header df = titles sh /\
    records df
    = filter (fun r => match cell i r with Some _ => true | None => false end)
             (map (map parse_cell) (lines sh)).
Proof.
  unfold clean, read_excel. destruct file as [|sheets]; [discriminate |].
  destruct (find_sheet "Sheet1" sheets) as [sh|] eqn:Es; [| discriminate].
  unfold dropna. simpl.
  destruct (position LINK (titles sh)) as [i|] eqn:Ep; [| discriminate].
  intros H. injection H as <-. exists sheets, sh, i. repeat split; assumption.
Qed.

Lemma load_dataset_source s df :
  load_dataset s = Dataset df ->
  exists file,
    (local_file s = Some file \/
     (local_file s = None /\ uploaded_file s = Some file)) /\
    clean file = Dataset df.
Proof.
  unfold load_dataset. destruct (local_file s) as [file|].
  - intros H. exists file. auto.
  - destruct (uploaded_file s) as [file|]; [| discriminate].
    intros H. exists file. auto.
Qed.

(** A line whose link cell is blank, or which ends before it. *)
Lemma blank_link_is_missing i line :
  nth i line "" = "" -> cell i (map parse_cell line) = None.
Proof.
  unfold cell. revert i. induction line as [|text line IH]; intros i; simpl.
  - destruct i; reflexivity.
  - destruct i as [|i]; [intros ->; reflexivity | apply IH].
Qed.

Lemma parsed_cell_not_empty i line link :
  cell i (map parse_cell line) = Some link -> link <> "".
Proof.
  unfold cell. revert i. induction line as [|text line IH]; intros i; simpl.
  - destruct i; discriminate.
  - destruct i as [|i]; [apply parse_cell_not_empty | apply IH].
Qed.

(** C7.  The loaded catalog is Sheet1 of the workbook, minus the records
    whose link is missing; a blank cell of the sheet is read as missing, so
    a line with a blank link is not among the loaded records, and every
    loaded record has a link that is not the empty text. *)
Theorem load_dataset_drops_missing_links s df :
  load_dataset s = Dataset df ->
  exists sheets sh i,
    (local_file s = Some (Book sheets) \/
     (local_file s = None /\ uploaded_file s = Some (Book sheets))) /\
    find_sheet "Sheet1" sheets = Some sh /\
    position LINK (titles sh) = Some i /\
    header df = titles sh /\
    records df
    = filter (fun r => match cell i r with Some _ => true | None => false end)
             (map (map parse_cell) (lines sh)) /\
    (forall line, In line (lines sh) -> nth i line "" = "" ->
       ~ In (map parse_cell line) (records df)) /\
    (forall record, In record (records df) ->
       exists link, cell i record = Some link /\ link <> "").
Proof.
  intros H.
  destruct (load_dataset_source _ _ H) as (file & Hfile & Hclean).
  destruct (clean_Dataset _ _ Hclean) as (sheets & sh & i & -> & Hs & Hp & Hh & Hr).
  exists sheets, sh, i. repeat split; try assumption.
  - intros line _ Hblank Hkept. rewrite Hr in Hkept.
    apply filter_In in Hkept. destruct Hkept as [_ Hsome].
    rewrite (blank_link_is_missing _ _ Hblank) in Hsome. discriminate.
  - intros record Hkept. rewrite Hr in Hkept.
    apply filter_In in Hkept. destruct Hkept as [Hin Hsome].
    apply in_map_iff in Hin. destruct Hin as (line & <- & _).
    destruct (cell i (map parse_cell line)) as [link|] eqn:E; [| discriminate].
    exists link. split; [reflexivity |].
    now apply (parsed_cell_not_empty _ _ _ E).
Qed.

Lemma load_dataset_drops_missing_links_witness :
  exists sheets sh i,
    (local_file (mkSession None (Some Samples.catalog_book)) = Some (Book sheets) \/
     (local_file (mkSession None (Some Samples.catalog_book)) = None /\
      uploaded_file (mkSession None (Some Samples.catalog_book))
      = Some (Book sheets))) /\
    find_sheet "Sheet1" sheets = Some sh /\
    position LINK (titles sh) = Some i /\
    header Samples.loaded_catalog = titles sh /\
    records Samples.loaded_catalog
    = filter (fun r => match cell i r with Some _ => true | None => false end)
             (map (map parse_cell) (lines sh)) /\
    (forall line, In line (lines sh) -> nth i line "" = "" ->
       ~ In (map parse_cell line) (records Samples.loaded_catalog)) /\
    (forall record, In record (records Samples.loaded_catalog) ->
       exists link, cell i record = Some link /\ link <> "").
Proof.
  apply (load_dataset_drops_missing_links
           (mkSession None (Some Samples.catalog_book))).
  reflexivity.
Defined.

(** The sample workbook, loaded: the record without a link is gone, the one
    with a link of blanks stays. *)
Example load_dataset_sample :
  load_dataset (mkSession None (Some Samples.catalog_book))
  = Dataset Samples.loaded_catalog.
Proof. reflexivity. Qed.

End CatalogFacts.

(** ** Fetcher *)

Module FetcherFacts.

Import Frame Fetcher.
Open Scope string_scope.

(** A body of no bytes has no line to parse. *)
Lemma records_of_nothing : Reader.records "" = [].
Proof. reflexivity. Qed.

(** Nor has a body of line ends, blanks and tabs. *)
Lemma records_of_blanks body :
  (forall line, In line (Reader.lines_from "" body) -> Reader.is_blank line = true) ->
  Reader.records body = [].
Proof.
  unfold Reader.records. intros H.
  induction (Reader.lines_from "" body) as [|line l IH]; [reflexivity |].
  simpl. rewrite (H line (or_introl eq_refl)). simpl.
  apply IH. intros x Hx. apply H. now right.
Qed.



(** Bodies without a record: line ends and blanks alone are rejected like
    no bytes at all; a header followed by a line end is a header alone; a
    header that names a column twice is left to the full reader. *)
Example read_csv_samples :
  Reader.read_csv (fun _ => None) (String (ascii_of_nat 10) "  ") = None /\
  Reader.read_csv (fun _ => None) ("Entity,Year" ++ String (ascii_of_nat 10) "")
  = Some {| columns := ["Entity"; "Year"]; rows := []; blank_entity := false |} /\
  Reader.plain_header "Entity,Entity" = false.
Proof. repeat split. Qed.

End FetcherFacts.

(** ** Resolver *)

Module ResolverFacts.

Import Frame Fetcher Resolver.
Open Scope string_scope.

Lemma unique_In l x : In x (unique l) <-> In x l.
Proof.
  induction l as [|y l IH]; simpl; [tauto |].
  rewrite filter_In, IH, negb_true_iff, String.eqb_neq.
  destruct (string_dec y x) as [-> | Hne]; intuition congruence.
Qed.

Lemma unique_NoDup l : NoDup (unique l).
Proof.
  induction l as [|y l IH]; simpl; constructor.
  - rewrite filter_In, negb_true_iff, String.eqb_neq. tauto.
  - now apply NoDup_filter.
Qed.

Lemma strictly_ascending l :
  StronglySorted (fun x y => String.leb x y = true) l ->
  NoDup l ->
  StronglySorted String_as_OT.lt l.
Proof.
  induction 1 as [|x l Hs IH Hx]; intros Hnd; constructor.
  - apply IH. now inversion Hnd.
  - apply Forall_forall. intros y Hy.
    rewrite Forall_forall in Hx. specialize (Hx y Hy).
    apply String_as_OT.cmp_lt. unfold String_as_OT.cmp.
    unfold String.leb in Hx.
    destruct (String.compare x y) eqn:E; [| reflexivity | discriminate].
    apply OrderFacts.compare_eq in E. subst y.
    inversion Hnd. contradiction.
Qed.

(** Line 97: each entity of the table once, in ascending order. *)
Lemma entities_sorted_distinct first_data :
  StronglySorted String_as_OT.lt (entities first_data) /\
  forall x, In x (entities first_data) <-> In x (map Entity (rows first_data)).
Proof.
  unfold entities, sorted. split.
  - apply strictly_ascending.
    + apply sort_strongly_sorted.
      * apply String.leb_total.
      * apply OrderFacts.string_leb_trans.
    + eapply Permutation_NoDup.
      * apply Permutation_sym, sort_perm.
      * apply unique_NoDup.
  - intros x. rewrite sort_In. apply unique_In.
Qed.

Section Scan.

Variable requests_get : string -> option Response.
Variable read_csv : string -> option DataFrame.

Let skipped (url : option string) : Prop :=
  usable url = false \/ probe requests_get read_csv url = None.

Lemma scan_skips before rest :
  (forall u, In u before -> skipped u) ->
  scan requests_get read_csv (before ++ rest)%list
  = scan requests_get read_csv rest.
Proof.
  induction before as [|u before IH]; intros H; simpl; [reflexivity |].
  destruct (H u (or_introl eq_refl)) as [E | E]; rewrite E.
  - apply IH. intros v Hv. apply H. now right.
  - destruct (usable u); apply IH; intros v Hv; apply H; now right.
Qed.

Lemma scan_nothing links :
  (forall u, In u links -> skipped u) ->
  scan requests_get read_csv links = [].
Proof.
  intros H. rewrite <- (app_nil_r links). now rewrite scan_skips.
Qed.

End Scan.

(** The loop on a link column of texts and gaps and on tables whose
    Entity cells are all texts, where nothing raises.  The links are tried
    in order, blank ones aside; the first table fetched that has an Entity
    column decides: the list is its entities, each once and ascending,
    unless it has none, and then the list is the fallback list; when no
    link yields such a table the list is the fallback list too. *)
Lemma resolve_countries_rule requests_get read_csv links :
  (forall before url first_data after,
     links = (before ++ url :: after)%list ->
     (forall u, In u before ->
        usable u = false \/ probe requests_get read_csv u = None) ->
     usable url = true ->
     probe requests_get read_csv url = Some first_data ->
     resolve_countries requests_get read_csv links
     = match entities first_data with
       | [] => FALLBACK_COUNTRIES
       | countries => countries
       end /\
     StronglySorted String_as_OT.lt (entities first_data) /\
     (forall x, In x (entities first_data)
                <-> In x (map Entity (rows first_data)))) /\
  ((forall u, In u links ->
      usable u = false \/ probe requests_get read_csv u = None) ->
   resolve_countries requests_get read_csv links = FALLBACK_COUNTRIES) /\
  List.length FALLBACK_COUNTRIES = 20%nat.
Proof.
  split; [| split].
  - intros before url first_data after -> Hbefore Husable Hprobe.
    split; [| apply entities_sorted_distinct].
    unfold resolve_countries.
    rewrite (scan_skips requests_get read_csv before (url :: after) Hbefore).
    simpl. now rewrite Husable, Hprobe.
  - intros Hnone. unfold resolve_countries.
    now rewrite (scan_nothing requests_get read_csv links Hnone).
  - reflexivity.
Qed.

(** The rule at work on the sample catalog: the blank link is passed over,
    the failing ones too, and the table of the worked example decides. *)
Example resolve_countries_sample :
  resolve_countries Samples.canned_get Samples.canned_read_csv
    [Some "   "; None; Some "https://example.org/gone.csv";
     Some "https://example.org/empty.csv"; Some "https://example.org/gdp.csv";
     Some "https://example.org/header.csv"]
  = ["Genovia"; "Wakanda"].
Proof. reflexivity. Qed.

Example resolve_countries_all_fail :
  resolve_countries Samples.canned_get Samples.canned_read_csv
    [Some "https://example.org/gone.csv"; Some "https://example.org/nowhere.csv"]
  = FALLBACK_COUNTRIES.
Proof. reflexivity. Qed.

End ResolverFacts.

(** ** Sidebar *)

Module SidebarFacts.

Import Frame Fetcher Resolver Sidebar.
Open Scope string_scope.

Section Loop.

Variable requests_get : string -> option Response.
Variable read_csv : string -> option DataFrame.

Lemma pass_over cell :
  passed_over requests_get read_csv cell ->
  pass requests_get read_csv cell = Next.
Proof.
  destruct cell as [|url|]; simpl; [reflexivity | | intros []].
  intros [E | E].
  - rewrite E. reflexivity.
  - destruct (negb (Text.strip url =? "")); [| reflexivity].
    destruct (fetch_country_data requests_get read_csv url) as [d| |];
      try reflexivity.
    destruct (Text.mem "Entity" (columns d)); [discriminate | reflexivity].
Qed.

Lemma loop_skips before rest :
  (forall c, In c before -> passed_over requests_get read_csv c) ->
  loop requests_get read_csv (before ++ rest)%list
  = loop requests_get read_csv rest.
Proof.
  induction before as [|c before IH]; intros H; simpl; [reflexivity |].
  rewrite (pass_over c (H c (or_introl eq_refl))).
  apply IH. intros x Hx. apply H. now right.
Qed.

Lemma pass_decides url first_data :
  Text.strip url <> "" ->
  fetch_country_data requests_get read_csv url = Data first_data ->
  Text.mem "Entity" (columns first_data) = true ->
  pass requests_get read_csv (TextLink url)
  = match sorted_entities first_data with
    | Some countries => Break countries
    | None => Raise
    end.
Proof.
  intros Hs Hf HE. simpl. apply String.eqb_neq in Hs.
  now rewrite Hs, Hf, HE.
Qed.

(** On a link column of texts and gaps, and tables whose Entity cells are
    all texts, the loop with its handler is the loop of [Resolver]. *)
Lemma countries_refine links :
  (forall u d, In (Some u) links ->
     fetch_country_data requests_get read_csv u = Data d ->
     blank_entity d = false) ->
  countries requests_get read_csv (map cell_of links)
  = map Some (resolve_countries requests_get read_csv links).
Proof.
  intros Hfull.
  assert (E : loop requests_get read_csv (map cell_of links)
              = Some (map Some (scan requests_get read_csv links))).
  { induction links as [|[u|] links IH]; simpl; [reflexivity | |].
    - destruct (negb (Text.strip u =? "")).
      + destruct (fetch_country_data requests_get read_csv u) as [d| |] eqn:Ef;
          try (apply IH; intros; eapply Hfull; [right |]; eassumption).
        destruct (Text.mem "Entity" (columns d)).
        * unfold sorted_entities.
          rewrite (Hfull u d (or_introl eq_refl) Ef). reflexivity.
        * apply IH; intros; eapply Hfull; [right |]; eassumption.
      + apply IH; intros; eapply Hfull; [right |]; eassumption.
    - apply IH; intros; eapply Hfull; [right |]; eassumption. }
  unfold countries, resolve_countries. rewrite E.
  destruct (scan requests_get read_csv links); reflexivity.
Qed.

End Loop.

(** C8, as the script has it, for a link column whose texts are ASCII and
    tables whose Entity cells are texts or empty.  The cells are tried in
    order; empty cells, blank links and links that yield no table with an
    Entity column are passed over.  The first table with an Entity column
    decides.  When its Entity cells are all texts the list is its entities,
    each once and ascending, unless it has none, and then the list is the
    fallback list.  When it has an empty Entity cell beside a text,
    [sorted] raises and the handler of lines 105-108 gives the fallback
    list; when all its Entity cells are empty the list is the one name
    NaN.  A link cell that is not a text makes [strip] raise, with the same
    handler.  When every cell is passed over the list is the fallback list,
    of twenty names, as written. *)
Theorem countries_rule requests_get read_csv cells :
  forallb ascii_cell cells = true ->
  (forall before url first_data after,
     cells = (before ++ TextLink url :: after)%list ->
     (forall c, In c before -> passed_over requests_get read_csv c) ->
     Text.strip url <> "" ->
     fetch_country_data requests_get read_csv url = Data first_data ->
     Text.mem "Entity" (columns first_data) = true ->
     (blank_entity first_data = false ->
        countries requests_get read_csv cells
        = match entities first_data with
          | [] => map Some FALLBACK_COUNTRIES
          | found => map Some found
          end) /\
     (blank_entity first_data = true -> rows first_data <> [] ->
        countries requests_get read_csv cells = map Some FALLBACK_COUNTRIES) /\
     (blank_entity first_data = true -> rows first_data = [] ->
        countries requests_get read_csv cells = [None]) /\
     StronglySorted String_as_OT.lt (entities first_data) /\
     (forall x, In x (entities first_data)
                <-> In x (map Entity (rows first_data)))) /\
  (forall before after,
     cells = (before ++ OtherLink :: after)%list ->
     (forall c, In c before -> passed_over requests_get read_csv c) ->
     countries requests_get read_csv cells = map Some FALLBACK_COUNTRIES) /\
  ((forall c, In c cells -> passed_over requests_get read_csv c) ->
   countries requests_get read_csv cells = map Some FALLBACK_COUNTRIES) /\
  List.length FALLBACK_COUNTRIES = 20%nat.
Proof.
  intros _. split; [| split; [| split]].
  - intros before url first_data after -> Hbefore Hs Hf HE.
    unfold countries. rewrite (loop_skips _ _ before _ Hbefore).
    cbn [loop]. rewrite (pass_decides _ _ url first_data Hs Hf HE).
    unfold sorted_entities, entities.
    split; [| split; [| split]].
    + intros ->.
      destruct (sorted (unique (map Entity (rows first_data))));
        reflexivity.
    + intros -> Hrows.
      destruct (rows first_data) as [|r l]; [contradiction | reflexivity].
    + intros -> ->. reflexivity.
    + apply ResolverFacts.entities_sorted_distinct.
  - intros before after -> Hbefore.
    unfold countries. rewrite (loop_skips _ _ before _ Hbefore). reflexivity.
  - intros Hall. unfold countries.
    rewrite <- (app_nil_r cells), (loop_skips _ _ cells [] Hall). reflexivity.
  - reflexivity.
Qed.

Lemma countries_rule_witness :
  countries Samples.torn_get Samples.canned_reader
    [NoLink; TextLink "   "; TextLink "https://example.org/gone.csv";
     TextLink "https://example.org/gdp.csv"; OtherLink]
  = [Some "Genovia"; Some "Wakanda"] /\
  countries Samples.torn_get Samples.canned_reader
    [TextLink "https://example.org/torn.csv";
     TextLink "https://example.org/gdp.csv"]
  = map Some FALLBACK_COUNTRIES /\
  countries Samples.torn_get Samples.canned_reader
    [TextLink "https://example.org/gone.csv"; OtherLink;
     TextLink "https://example.org/gdp.csv"]
  = map Some FALLBACK_COUNTRIES.
Proof.
  split; [| split].
  - destruct (countries_rule Samples.torn_get Samples.canned_reader
                [NoLink; TextLink "   "; TextLink "https://example.org/gone.csv";
                 TextLink "https://example.org/gdp.csv"; OtherLink] eq_refl)
      as [H _].
    destruct (H [NoLink; TextLink "   "; TextLink "https://example.org/gone.csv"]
                "https://example.org/gdp.csv" Samples.gdp_table [OtherLink])
      as [H1 _].
    + reflexivity.
    + intros c [<- | [<- | [<- | []]]]; simpl; auto.
    + vm_compute. discriminate.
    + reflexivity.
    + reflexivity.
    + exact (H1 eq_refl).
  - destruct (countries_rule Samples.torn_get Samples.canned_reader
                [TextLink "https://example.org/torn.csv";
                 TextLink "https://example.org/gdp.csv"] eq_refl)
      as [H _].
    destruct (H [] "https://example.org/torn.csv" Samples.torn_table
                [TextLink "https://example.org/gdp.csv"])
      as (_ & H2 & _).
    + reflexivity.
    + intros c [].
    + vm_compute. discriminate.
    + reflexivity.
    + reflexivity.
    + apply H2; [reflexivity | discriminate].
  - destruct (countries_rule Samples.torn_get Samples.canned_reader
                [TextLink "https://example.org/gone.csv"; OtherLink;
                 TextLink "https://example.org/gdp.csv"] eq_refl)
      as (_ & H & _).
    apply (H [TextLink "https://example.org/gone.csv"]
             [TextLink "https://example.org/gdp.csv"]).
    + reflexivity.
    + intros c [<- | []]. right. reflexivity.
Defined.

(** C8, as the specification states it, fails: the first table that has an
    Entity column has no record, its sorted distinct entities are the empty
    list, and the list of countries is the fallback list, although the
    next link leads to a table with two countries. *)
Lemma countries_on_empty_table :
  fetch_country_data Samples.canned_get Samples.canned_reader
    "https://example.org/header.csv"
  = Data {| columns := ["Entity"; "Code"; "Year"; "GDP per capita"];
            rows := []; blank_entity := false |} /\
  entities {| columns := ["Entity"; "Code"; "Year"; "GDP per capita"];
              rows := []; blank_entity := false |} = [] /\
  countries Samples.canned_get Samples.canned_reader
    [TextLink "https://example.org/header.csv";
     TextLink "https://example.org/gdp.csv"]
  = map Some FALLBACK_COUNTRIES /\
  countries Samples.canned_get Samples.canned_reader
    [TextLink "https://example.org/header.csv";
     TextLink "https://example.org/gdp.csv"]
  <> [].
Proof.
  repeat split; try reflexivity. vm_compute. discriminate.
Qed.

End SidebarFacts.

(** ** More on the comparison *)

Module ComparisonMore.

Import Frame Comparison Vocabulary ComparisonFacts.
Open Scope string_scope.

Lemma current_In part r : current part r -> In r part.
Proof.
  intros (before & after & -> & _). apply in_or_app. right. now left.
Qed.

(** X1.  Every message tells its cause: the format message means that Entity or
    Year is not a column; a country is named only when it has no record,
    the second one only when the first has records; the column message
    only when both countries have records and the header offers no column;
    the missing-values message only when the current record of one of the
    two countries has no observation. *)
Theorem failure_tells_cause pd data a b m f :
  compare pd data a b m = Failed f ->
  match f with
  | InvalidFormat =>
      ~ In "Entity" (columns data) \/ ~ In "Year" (columns data)
  | NoDataForCountry c =>
      of_entity data c = [] /\ (c = a \/ (c = b /\ of_entity data a <> []))
  | ColumnNotFound x =>
      x = m /\ of_entity data a <> [] /\ of_entity data b <> [] /\
      find_metric_column (columns data) m = None
  | MissingCurrentValue =>
      exists col row_a row_b,
        find_metric_column (columns data) m = Some col /\
        current (of_entity data a) row_a /\
        current (of_entity data b) row_b /\
        (at_column data col row_a = None \/ at_column data col row_b = None)
  end.
Proof.
  unfold compare.
  destruct (Text.mem "Entity" (columns data)) eqn:HE; simpl.
  2:{ intros H. injection H as <-. left. intros Hin.
      apply TextFacts.mem_iff in Hin. congruence. }
  destruct (Text.mem "Year" (columns data)) eqn:HY; simpl.
  2:{ intros H. injection H as <-. right. intros Hin.
      apply TextFacts.mem_iff in Hin. congruence. }
  destruct (of_entity data a) as [|ra rest_a] eqn:Ea.
  { intros H. injection H as <-. auto. }
  destruct (of_entity data b) as [|rb rest_b] eqn:Eb.
  { intros H. injection H as <-. split; [exact Eb |]. right.
    split; [reflexivity | discriminate]. }
  destruct (find_metric_column (columns data) m) as [col|] eqn:Ec.
  2:{ intros H. injection H as <-. repeat split; discriminate || reflexivity. }
  unfold report.
  destruct (col =? "Entity"); [discriminate |].
  destruct (statistics_raise pd data col (ra :: rest_a)
            || statistics_raise pd data col (rb :: rest_b)); [discriminate |].
  destruct (current_exists ra rest_a) as [row_a Ha].
  destruct (current_exists rb rest_b) as [row_b Hb].
  rewrite (current_value data col _ _ _ Ha), (current_value data col _ _ _ Hb).
  destruct (at_column data col row_a) as [va|] eqn:Va.
  - destruct (at_column data col row_b) as [vb|] eqn:Vb.
    + destruct (col =? "Year"); discriminate.
    + intros H. injection H as <-. exists col, row_a, row_b. auto.
  - intros H. injection H as <-. exists col, row_a, row_b. auto.
Qed.

Lemma failure_tells_cause_witness :
  of_entity Samples.bare_table "Atlantis" = [] /\
  ("Atlantis" = "Wakanda" \/
   ("Atlantis" = "Atlantis" /\ of_entity Samples.bare_table "Wakanda" <> [])).
Proof.
  apply (failure_tells_cause Pandas.From3 Samples.bare_table
           "Wakanda" "Atlantis" "GDP"
           (NoDataForCountry "Atlantis")).
  reflexivity.
Defined.

Lemma compare_Done_header pd data a b m res :
  compare pd data a b m = Done res ->
  Text.mem "Entity" (columns data) = true /\
  Text.mem "Year" (columns data) = true.
Proof.
  unfold compare.
  destruct (Text.mem "Entity" (columns data)); [| discriminate].
  destruct (Text.mem "Year" (columns data)); [| discriminate]. auto.
Qed.

(** X2.  Exchanging the two countries exchanges everything shown for
    them: years, current values, statistics and time series; the combined
    rows are the same rows. *)
Theorem compare_swapped pd data a b m res :
  compare pd data a b m = Done res ->
  exists res',
    compare pd data b a m = Done res' /\
    metric_column res' = metric_column res /\
    latest_year_a res' = latest_year_b res /\
    latest_year_b res' = latest_year_a res /\
    value_a res' = value_b res /\
    value_b res' = value_a res /\
    country_a_stats res' = country_b_stats res /\
    country_b_stats res' = country_a_stats res /\
    country_a_time res' = country_b_time res /\
    country_b_time res' = country_a_time res /\
    Permutation (combined_data res') (combined_data res).
Proof.
  intros H.
  destruct (compare_Done_header _ _ _ _ _ _ H) as [HE HY].
  destruct (compare_Done_inv _ _ _ _ _ _ H)
    as (col & ra & rest_a & rb & rest_b & Ea & Eb & Ec & Hr).
  destruct (report_Done_inv _ _ _ _ _ _ _ _ Hr)
    as (HnE & HnY & Hva & Hvb & Hc & Hya & Hyb & _ & Hsa & Hsb & Hta & Htb & Hcomb).
  destruct (report_Done_quiet _ _ _ _ _ _ _ _ Hr) as [Hqa Hqb].
  rewrite (compare_reaches_report pd data b a m _ _ _ _ HE HY Eb Ea), Ec.
  unfold report. rewrite Hva, Hvb, Hqa, Hqb.
  apply String.eqb_neq in HnE, HnY. rewrite HnE, HnY.
  eexists. split; [reflexivity |]. simpl.
  rewrite Hc, Hya, Hyb, Hsa, Hsb, Hta, Htb, Hcomb.
  repeat split; try reflexivity.
  unfold combine, sort_values.
  eapply perm_trans; [apply sort_perm |].
  eapply perm_trans; [apply Permutation_app_comm |].
  apply Permutation_sym, sort_perm.
Qed.

Lemma compare_swapped_witness :
  exists res',
    compare Pandas.From3 Samples.gap_table "Genovia" "Wakanda" "GDP per capita"
    = Done res' /\
    value_a res' = 1%Q /\ value_b res' = 5%Q /\
    latest_year_a res' = 2005%Z /\ latest_year_b res' = 2010%Z.
Proof.
  destruct (compare_swapped Pandas.From3 Samples.gap_table "Wakanda" "Genovia"
              "GDP per capita" _ eq_refl)
    as (res' & H & _ & Hya & Hyb & Ha & Hb & _).
  exists res'. split; [exact H |].
  split; [exact Ha | split; [exact Hb | split; [exact Hya | exact Hyb]]].
Defined.

(** X3.  A country compared with itself: the same figures twice, a delta of
    zero, and every record twice among the combined rows. *)
Theorem compare_with_itself pd data a m res :
  compare pd data a a m = Done res ->
  latest_year_b res = latest_year_a res /\
  value_b res = value_a res /\
  (delta res == 0)%Q /\
  country_b_stats res = country_a_stats res /\
  Permutation (combined_data res)
    (map (project data (metric_column res)) (of_entity data a ++ of_entity data a)) /\
  List.length (combined_data res) = (2 * List.length (of_entity data a))%nat.
Proof.
  intros H.
  destruct (compare_Done_inv _ _ _ _ _ _ H)
    as (col & ra & rest_a & rb & rest_b & Ea & Eb & Ec & Hr).
  rewrite Ea in Eb. injection Eb as <- <-.
  destruct (report_Done_inv _ _ _ _ _ _ _ _ Hr)
    as (_ & _ & Hva & Hvb & Hc & Hya & Hyb & Hd & Hsa & Hsb & _ & _ & Hcomb).
  assert (Hv : value_b res = value_a res) by congruence.
  rewrite Hd, Hv, Hya, Hyb, Hsa, Hsb, Hcomb, Hc, Ea.
  unfold combine, sort_values. repeat split.
  - ring.
  - rewrite map_app. apply sort_perm.
  - rewrite sort_length, length_app, !length_map. simpl. lia.
Qed.

Lemma compare_with_itself_witness :
  exists res,
    compare Pandas.From3 Samples.gdp_table "Wakanda" "Wakanda" "GDP per capita" = Done res /\
    (delta res == 0)%Q /\
    List.length (combined_data res)
    = (2 * List.length (of_entity Samples.gdp_table "Wakanda"))%nat.
Proof.
  eexists. split; [vm_compute; reflexivity |].
  destruct (compare_with_itself Pandas.From3 Samples.gdp_table
              "Wakanda" "GDP per capita"
              _ eq_refl) as (_ & _ & Hd & _ & _ & Hl).
  split; [exact Hd | exact Hl].
Defined.

(** X4.  The current value of a country is one of its observations, so it lies
    between the minimum and the maximum shown for that country. *)
Theorem current_value_within_extremes pd data a b m res :
  compare pd data a b m = Done res ->
  (exists mn mx,
     Stats.min (country_a_stats res) = Some mn /\
     Stats.max (country_a_stats res) = Some mx /\
     (mn <= value_a res)%Q /\ (value_a res <= mx)%Q) /\
  (exists mn mx,
     Stats.min (country_b_stats res) = Some mn /\
     Stats.max (country_b_stats res) = Some mx /\
     (mn <= value_b res)%Q /\ (value_b res <= mx)%Q).
Proof.
  intros H.
  destruct (compare_Done_statistics _ _ _ _ _ _ H)
    as (-> & -> & (r1 & Hr1 & Hv1) & (r2 & Hr2 & Hv2)).
  split.
  - assert (H0 : In (Some (value_a res))
                    (column data (metric_column res) (of_entity data a)))
      by (apply In_column; now exists r1).
    destruct (SeriesFacts.reductions_ordered _ _ H0)
      as (mx & mn & mu & Hmx & Hmn & _ & _ & _ & Hb & _).
    exists mn, mx. simpl. repeat split; try assumption; now apply Hb.
  - assert (H0 : In (Some (value_b res))
                    (column data (metric_column res) (of_entity data b)))
      by (apply In_column; now exists r2).
    destruct (SeriesFacts.reductions_ordered _ _ H0)
      as (mx & mn & mu & Hmx & Hmn & _ & _ & _ & Hb & _).
    exists mn, mx. simpl. repeat split; try assumption; now apply Hb.
Qed.

Lemma current_value_within_extremes_witness :
  exists res,
    compare Pandas.From3 Samples.gdp_table "Wakanda" "Genovia" "GDP per capita" = Done res /\
    (exists mn mx,
       Stats.min (country_a_stats res) = Some mn /\
       Stats.max (country_a_stats res) = Some mx /\
       (mn <= value_a res)%Q /\ (value_a res <= mx)%Q).
Proof.
  eexists. split; [vm_compute; reflexivity |].
  apply (current_value_within_extremes Pandas.From3 Samples.gdp_table
           "Wakanda" "Genovia" "GDP per capita" _ eq_refl).
Defined.

(** *** The years of the extremes *)

Lemma first_at_split m (s : Series.t) q0 :
  In (Some q0) s -> (q0 == m)%Q ->
  exists s1 q s2,
    s = (s1 ++ Some q :: s2)%list /\ (q == m)%Q /\
    (forall q', In (Some q') s1 -> ~ (q' == m)%Q) /\
    Series.first_at m s = Some (List.length s1).
Proof.
  induction s as [|v s IH]; intros Hin Heq; [destruct Hin |].
  destruct v as [x|]; simpl.
  - destruct (Qeq_bool x m) eqn:E.
    + exists [], x, s. repeat split.
      * now apply Qeq_bool_iff.
      * intros q' [].
    + destruct Hin as [Hx | Hin].
      * injection Hx as ->. apply Qeq_eq_bool in Heq. congruence.
      * destruct (IH Hin Heq) as (s1 & q & s2 & -> & Hq & Hs1 & Hf).
        exists (Some x :: s1), q, s2. repeat split; auto.
        -- intros q' [Hq' | Hq'].
           ++ injection Hq' as <-. now apply Qeq_bool_neq.
           ++ now apply Hs1.
        -- rewrite Hf. reflexivity.
  - destruct Hin as [Hx | Hin]; [discriminate |].
    destruct (IH Hin Heq) as (s1 & q & s2 & -> & Hq & Hs1 & Hf).
    exists (None :: s1), q, s2. repeat split; auto.
    + intros q' [Hq' | Hq']; [discriminate | now apply Hs1].
    + rewrite Hf. reflexivity.
Qed.

Lemma year_at_split data c part (s1 s2 : Series.t) q :
  column data c part = (s1 ++ Some q :: s2)%list ->
  exists before r after,
    part = (before ++ r :: after)%list /\
    column data c before = s1 /\ at_column data c r = Some q /\
    year_at part (Some (List.length s1)) = Some (Year r).
Proof.
  unfold column. intros H.
  apply map_eq_app in H. destruct H as (before & tl & -> & Hb & Ht).
  apply map_eq_cons in Ht. destruct Ht as (r & after & -> & Hr & _).
  exists before, r, after. repeat split; try assumption.
  simpl. rewrite <- Hb, length_map, nth_error_app2, Nat.sub_diag by lia.
  reflexivity.
Qed.

(** X5.  On a row set with an observation, the year shown beside the maximum is
    the year of the first record, in row order, that holds the maximum: the
    records before it hold less or nothing.  Likewise for the minimum. *)
Theorem extreme_years data c part :
  (exists r q, In r part /\ at_column data c r = Some q) ->
  exists mx mn,
    Stats.max (statistics data c part) = Some mx /\
    Stats.min (statistics data c part) = Some mn /\
    (exists before r after q,
       part = (before ++ r :: after)%list /\
       at_column data c r = Some q /\ (q == mx)%Q /\
       (forall x v, In x before -> at_column data c x = Some v -> (v < mx)%Q) /\
       Stats.max_year (statistics data c part) = Some (Year r)) /\
    (exists before r after q,
       part = (before ++ r :: after)%list /\
       at_column data c r = Some q /\ (q == mn)%Q /\
       (forall x v, In x before -> at_column data c x = Some v -> (mn < v)%Q) /\
       Stats.min_year (statistics data c part) = Some (Year r)).
Proof.
  intros (r0 & q0 & Hr0 & Hq0).
  assert (H0 : In (Some q0) (column data c part)).
  { apply In_column. now exists r0. }
  destruct (SeriesFacts.reductions_ordered _ _ H0)
    as (mx & mn & mu & Hmx & Hmn & _ & Imx & Imn & Hb & _).
  exists mx, mn. simpl. repeat split; try assumption.
  - destruct (first_at_split mx _ mx Imx (Qeq_refl mx))
      as (s1 & q & s2 & Hs & Hq & Hs1 & Hf).
    destruct (year_at_split _ _ _ _ _ _ Hs)
      as (before & r & after & Hp & Hbefore & Hr & Hy).
    exists before, r, after, q. repeat split; try assumption.
    + intros x v Hx Hv.
      assert (Hin1 : In (Some v) s1).
      { rewrite <- Hbefore. apply In_column. now exists x. }
      assert (Hle : (v <= mx)%Q).
      { apply (Hb v). rewrite Hs. apply in_or_app. now left. }
      apply Qle_lteq in Hle. destruct Hle as [Hlt | Heq]; [exact Hlt |].
      exfalso. now apply (Hs1 v Hin1).
    + unfold Series.idxmax. rewrite Hmx, Hf. exact Hy.
  - destruct (first_at_split mn _ mn Imn (Qeq_refl mn))
      as (s1 & q & s2 & Hs & Hq & Hs1 & Hf).
    destruct (year_at_split _ _ _ _ _ _ Hs)
      as (before & r & after & Hp & Hbefore & Hr & Hy).
    exists before, r, after, q. repeat split; try assumption.
    + intros x v Hx Hv.
      assert (Hin1 : In (Some v) s1).
      { rewrite <- Hbefore. apply In_column. now exists x. }
      assert (Hle : (mn <= v)%Q).
      { apply (Hb v). rewrite Hs. apply in_or_app. now left. }
      apply Qle_lteq in Hle. destruct Hle as [Hlt | Heq]; [exact Hlt |].
      exfalso. apply (Hs1 v Hin1). now symmetry.
    + unfold Series.idxmin. rewrite Hmn, Hf. exact Hy.
Qed.

Lemma extreme_years_witness :
  exists mx mn,
    Stats.max (statistics Samples.gap_table "GDP per capita"
                 (of_entity Samples.gap_table "Wakanda")) = Some mx /\
    Stats.min (statistics Samples.gap_table "GDP per capita"
                 (of_entity Samples.gap_table "Wakanda")) = Some mn /\
    (exists before r after q,
       of_entity Samples.gap_table "Wakanda" = (before ++ r :: after)%list /\
       at_column Samples.gap_table "GDP per capita" r = Some q /\ (q == mx)%Q /\
       (forall x v, In x before ->
          at_column Samples.gap_table "GDP per capita" x = Some v -> (v < mx)%Q) /\
       Stats.max_year (statistics Samples.gap_table "GDP per capita"
                         (of_entity Samples.gap_table "Wakanda"))
       = Some (Year r)) /\
    (exists before r after q,
       of_entity Samples.gap_table "Wakanda" = (before ++ r :: after)%list /\
       at_column Samples.gap_table "GDP per capita" r = Some q /\ (q == mn)%Q /\
       (forall x v, In x before ->
          at_column Samples.gap_table "GDP per capita" x = Some v -> (mn < v)%Q) /\
       Stats.min_year (statistics Samples.gap_table "GDP per capita"
                         (of_entity Samples.gap_table "Wakanda"))
       = Some (Year r)).
Proof.
  apply (extreme_years Samples.gap_table "GDP per capita"
           (of_entity Samples.gap_table "Wakanda")).
  exists (mkRow "Wakanda" 2010 [Some 5%Q]), 5%Q.
  split; [vm_compute; right; now left | reflexivity].
Defined.

(** *** The line chart *)

Lemma In_time_series data c part r :
  In r (dropna data c part) <->
  In r part /\ exists q, at_column data c r = Some q.
Proof.
  unfold dropna. rewrite filter_In.
  destruct (at_column data c r) as [q|]; simpl; split; intros [H1 H2];
    split; eauto; try discriminate.
  destruct H2 as [q Hq]. discriminate.
Qed.

(** X6.  After a successful comparison the test of line 278 passes and
    the warning of line 307 is not shown: each of the two lines handed to
    [plot] has a point, and its points are the year and the observation of
    the records of that country that hold one, in row order. *)
Theorem line_chart_plotted pd data a b m res :
  compare pd data a b m = Done res ->
  exists line_a line_b,
    Chart.line_chart data res = Chart.Plotted line_a line_b /\
    line_a <> [] /\ line_b <> [] /\
    line_a = Chart.points data (metric_column res)
               (valid_rows data (metric_column res) (of_entity data a)) /\
    line_b = Chart.points data (metric_column res)
               (valid_rows data (metric_column res) (of_entity data b)) /\
    (forall y v, In (y, v) (line_a ++ line_b)%list -> exists q, v = Some q).
Proof.
  intros H.
  destruct (compare_Done_statistics _ _ _ _ _ _ H)
    as (_ & _ & (r1 & Hr1 & Hv1) & (r2 & Hr2 & Hv2)).
  destruct (compare_Done_inv _ _ _ _ _ _ H)
    as (col & ra & rest_a & rb & rest_b & Ea & Eb & _ & Hr).
  destruct (report_Done_inv _ _ _ _ _ _ _ _ Hr)
    as (_ & _ & _ & _ & Hc & _ & _ & _ & _ & _ & Hta & Htb & _).
  rewrite <- Ea, <- Hc in Hta. rewrite <- Eb, <- Hc in Htb.
  set (c := metric_column res) in *.
  assert (Na : In r1 (country_a_time res)).
  { rewrite Hta. apply In_time_series. eauto. }
  assert (Nb : In r2 (country_b_time res)).
  { rewrite Htb. apply In_time_series. eauto. }
  assert (Hvalid : forall part, dropna data c part = valid_rows data c part).
  { intros part. unfold dropna, valid_rows. apply filter_ext.
    intros r. now destruct (at_column data c r). }
  unfold Chart.line_chart. fold c.
  destruct (country_a_time res) as [|ta0 ta] eqn:Ta; [destruct Na |].
  destruct (country_b_time res) as [|tb0 tb] eqn:Tb; [destruct Nb |].
  do 2 eexists. split; [reflexivity |].
  split; [discriminate | split; [discriminate |]].
  rewrite <- !Hvalid, <- Hta, <- Htb.
  split; [reflexivity | split; [reflexivity |]].
  intros y v Hin. apply in_app_or in Hin. unfold Chart.points in Hin.
  destruct Hin as [Hin | Hin]; apply in_map_iff in Hin;
    destruct Hin as (r & Hrv & Hin); injection Hrv as _ <-.
  - rewrite Hta in Hin. apply In_time_series in Hin. tauto.
  - rewrite Htb in Hin. apply In_time_series in Hin. tauto.
Qed.

Lemma line_chart_plotted_witness :
  exists res,
    compare Pandas.From3 Samples.gap_table "Wakanda" "Genovia" "GDP per capita"
    = Done res /\
    Chart.line_chart Samples.gap_table res
    = Chart.Plotted [(2010%Z, Some 5%Q)] [(2005%Z, Some 1%Q)].
Proof.
  eexists. split; [reflexivity |].
  destruct (line_chart_plotted Pandas.From3 Samples.gap_table
              "Wakanda" "Genovia" "GDP per capita" _ eq_refl)
    as (line_a & line_b & Hc & _ & _ & -> & -> & _).
  exact Hc.
Defined.

End ComparisonMore.

(** ** More on the resolver *)

Module ResolverMore.

Import Frame Fetcher Resolver ResolverFacts.
Open Scope string_scope.

(** *** Blank links *)



Lemma lstrip_head c s : Text.lstrip s <> String c "" \/ Text.isspace c = false.
Proof.
  induction s as [|d s IH]; simpl.
  - left. discriminate.
  - destruct (Text.isspace d) eqn:E; [exact IH |].
    destruct (ascii_dec c d) as [-> | Hn]; [now right |].
    left. intros H. injection H as H _. congruence.
Qed.






(** *** The list of countries *)







End ResolverMore.

(** ** More on the catalog and the page *)

Module PageFacts.

Import Frame Catalog Fetcher Comparison Resolver CatalogFacts.
Open Scope string_scope.

(** *** When loading fails *)

Lemma clean_error_iff file :
  clean file = ErrorLoadingDataset <->
  (file = Unreadable \/
   exists sheets,
     file = Book sheets /\
     (find_sheet "Sheet1" sheets = None \/
      exists sh, find_sheet "Sheet1" sheets = Some sh /\
                 position LINK (titles sh) = None)).
Proof.
  unfold clean, read_excel, Catalog.dropna. destruct file as [|sheets].
  - split; [now left | reflexivity].
  - destruct (find_sheet "Sheet1" sheets) as [sh|] eqn:Es; simpl.
    + destruct (position LINK (titles sh)) as [i|] eqn:Ep.
      * split; [discriminate |].
        intros [H | (sheets' & H & [H' | (sh' & H1 & H2)])]; try discriminate.
        -- injection H as <-. congruence.
        -- injection H as <-. rewrite Es in H1. injection H1 as <-. congruence.
      * split; [| reflexivity]. intros _. right. exists sheets.
        split; [reflexivity |]. right. now exists sh.
    + split; [| reflexivity]. intros _. right. exists sheets. auto.
Qed.

Lemma clean_not_nothing file : clean file <> NothingUploaded.
Proof.
  unfold clean. destruct (read_excel file "Sheet1") as [df|]; [| discriminate].
  destruct (Catalog.dropna df LINK); discriminate.
Qed.

(** What the body of [load_dataset] returns on a session. *)
Lemma load_dataset_body s :
  (load_dataset s = NothingUploaded <->
     local_file s = None /\ uploaded_file s = None) /\
  (load_dataset s = ErrorLoadingDataset <->
     exists file,
       (local_file s = Some file \/
        (local_file s = None /\ uploaded_file s = Some file)) /\
       (file = Unreadable \/
        exists sheets,
          file = Book sheets /\
          (find_sheet "Sheet1" sheets = None \/
           exists sh, find_sheet "Sheet1" sheets = Some sh /\
                      position LINK (titles sh) = None))).
Proof.
  unfold load_dataset. split.
  - destruct (local_file s) as [file|].
    + split; [intros H; now apply clean_not_nothing in H | intros [H _]; discriminate].
    + destruct (uploaded_file s) as [file|].
      * split; [intros H; now apply clean_not_nothing in H | intros [_ H]; discriminate].
      * split; auto.
  - destruct (local_file s) as [file|].
    + rewrite clean_error_iff. split.
      * intros H. exists file. auto.
      * intros (f & [Hf | [Hf _]] & H); [| discriminate].
        injection Hf as <-. exact H.
    + destruct (uploaded_file s) as [file|].
      * rewrite clean_error_iff. split.
        -- intros H. exists file. auto.
        -- intros (f & [Hf | [_ Hf]] & H); [discriminate |].
           injection Hf as <-. exact H.
      * split; [discriminate |].
        intros (f & [Hf | [_ Hf]] & _); discriminate.
Qed.

Lemma reruns_remember r sessions :
  reruns (Some r) sessions = repeat r (List.length sessions).
Proof.
  induction sessions as [|s later IH]; simpl; [reflexivity | now rewrite IH].
Qed.

(** X10.  The function is memoised and takes no argument: every run of the
    script gets what the first run got, whatever is uploaded later.  That
    value is the request for an upload exactly when the first run found
    neither a local file nor an upload.  It is the error exactly when the
    file the first run read, the local one if there is one and the upload
    otherwise, is not a workbook, has no Sheet1, or has a Sheet1 without
    the link column. *)
Theorem load_dataset_failures s later :
  exists first,
    reruns None (s :: later) = repeat first (S (List.length later)) /\
    (first = NothingUploaded <->
       local_file s = None /\ uploaded_file s = None) /\
    (first = ErrorLoadingDataset <->
       exists file,
         (local_file s = Some file \/
          (local_file s = None /\ uploaded_file s = Some file)) /\
         (file = Unreadable \/
          exists sheets,
            file = Book sheets /\
            (find_sheet "Sheet1" sheets = None \/
             exists sh, find_sheet "Sheet1" sheets = Some sh /\
                        position LINK (titles sh) = None))).
Proof.
  exists (load_dataset s). split; [| apply load_dataset_body].
  simpl. now rewrite reruns_remember.
Qed.

(** A first run without a file, then a run with the sample workbook
    uploaded: the second run is asked for an upload again. *)
Example upload_after_first_run :
  reruns None [ {| local_file := None; uploaded_file := None |};
                {| local_file := None;
                   uploaded_file := Some Samples.catalog_book |} ]
  = [NothingUploaded; NothingUploaded] /\
  load_dataset {| local_file := None;
                  uploaded_file := Some Samples.catalog_book |}
  = Dataset Samples.loaded_catalog.
Proof. split; reflexivity. Qed.

(** *** What the fetcher returns *)

(** X12.  The fetcher returns a table only for a response with status 200 whose
    body the reader accepts; any other status is reported with its code,
    the body unread; a request that raises and a body that the reader
    rejects are reported as errors. *)
Theorem fetch_outcomes requests_get read_csv url :
  (forall data,
     fetch_country_data requests_get read_csv url = Data data <->
     exists response,
       requests_get url = Some response /\ status_code response = 200%Z /\
       read_csv (content response) = Some data) /\
  (forall status,
     fetch_country_data requests_get read_csv url = FailedToFetch status <->
     exists response,
       requests_get url = Some response /\ status_code response = status /\
       status <> 200%Z) /\
  (fetch_country_data requests_get read_csv url = ErrorFetching RequestException
   <-> requests_get url = None) /\
  (fetch_country_data requests_get read_csv url = ErrorFetching ParseError <->
     exists response,
       requests_get url = Some response /\ status_code response = 200%Z /\
       read_csv (content response) = None).
Proof.
  unfold fetch_country_data.
  destruct (requests_get url) as [response|].
  - destruct (Z.eqb_spec (status_code response) 200) as [E | E].
    + destruct (read_csv (content response)) as [d|] eqn:R.
      * repeat split; try discriminate.
        -- intros H. injection H as <-. now exists response.
        -- intros (r & Hr & _ & Hd). injection Hr as <-. congruence.
        -- intros (r & Hr & Hs & Hn). injection Hr as <-. congruence.
        -- intros (r & Hr & _ & Hd). injection Hr as <-. congruence.
      * repeat split; try discriminate.
        -- intros (r & Hr & _ & Hd). injection Hr as <-. congruence.
        -- intros (r & Hr & Hs & Hn). injection Hr as <-. congruence.
        -- intros _. now exists response.
    + repeat split; try discriminate.
      * intros (r & Hr & Hs & _). injection Hr as <-. congruence.
      * intros H. injection H as <-. now exists response.
      * intros (r & Hr & Hs & _). injection Hr as <-. now subst.
      * intros (r & Hr & Hs & _). injection Hr as <-. congruence.
  - repeat split; try discriminate; try reflexivity;
      intros (r & Hr & _); discriminate.
Qed.

End PageFacts.

(** ** The memo of the fetcher *)

Module MemoFacts.

Import Frame Fetcher Resolver Memo.
Open Scope string_scope.

Section Cached.

Variable network : nat -> string -> option Response.
Variable read_csv : string -> option DataFrame.

Lemma recall_None url entries :
  recall url entries = None <-> ~ In url (map fst entries).
Proof.
  induction entries as [|[u r] entries IH]; simpl.
  - tauto.
  - destruct (String.eqb_spec u url) as [-> | Hne].
    + split; [discriminate | intros H; exfalso; apply H; now left].
    + rewrite IH. split.
      * intros H [E | E]; [congruence | contradiction].
      * intros H E. apply H. now right.
Qed.

(** An entry, once made, is found again after any further call. *)
Lemma recall_kept url r u s :
  recall url (cache s) = Some r ->
  recall url (cache (snd (fetch_cached network read_csv u s))) = Some r.
Proof.
  intros H. unfold fetch_cached.
  destruct (recall u (cache s)) eqn:E; simpl; [exact H |].
  destruct (String.eqb_spec u url) as [-> | Hne]; [congruence | exact H].
Qed.

Lemma recall_kept_all url r urls :
  forall s, recall url (cache s) = Some r ->
            recall url (cache (fetch_all network read_csv urls s)) = Some r.
Proof.
  induction urls as [|u urls IH]; intros s H; simpl; [exact H |].
  apply IH. now apply recall_kept.
Qed.

Lemma recall_after_fetch url s :
  recall url (cache (snd (fetch_cached network read_csv url s)))
  = Some (fst (fetch_cached network read_csv url s)).
Proof.
  unfold fetch_cached. destruct (recall url (cache s)) eqn:E; simpl.
  - exact E.
  - now rewrite String.eqb_refl.
Qed.

Lemma tidy_start : tidy start.
Proof. split; [reflexivity | constructor]. Qed.

Lemma tidy_fetch url s :
  tidy s -> tidy (snd (fetch_cached network read_csv url s)).
Proof.
  intros [Hk Hn]. unfold fetch_cached.
  destruct (recall url (cache s)) eqn:E; simpl; [now split |].
  split; simpl; [now rewrite Hk |].
  constructor; [| exact Hn]. rewrite <- Hk. now apply recall_None.
Qed.

Lemma requested_fetch url s u :
  tidy s ->
  (In u (requested (snd (fetch_cached network read_csv url s))) <->
   u = url \/ In u (requested s)).
Proof.
  intros [Hk _]. unfold fetch_cached.
  destruct (recall url (cache s)) eqn:E; simpl.
  - split; [auto |]. intros [-> | H]; [| exact H].
    rewrite <- Hk. destruct (in_dec string_dec url (map fst (cache s))) as [H | H];
      [exact H |].
    apply recall_None in H. congruence.
  - split; intros [H | H]; auto.
Qed.

Lemma fetch_all_tidy urls :
  forall s, tidy s ->
    tidy (fetch_all network read_csv urls s) /\
    forall u, In u (requested (fetch_all network read_csv urls s)) <->
              In u urls \/ In u (requested s).
Proof.
  induction urls as [|url urls IH]; intros s Hs; simpl.
  - split; [exact Hs | tauto].
  - destruct (IH _ (tidy_fetch url s Hs)) as [Ht Hin]. split; [exact Ht |].
    intros u. rewrite Hin, (requested_fetch url s u Hs). intuition.
Qed.

End Cached.

(** X13.  Once a link has been fetched, every later call for it in the session
    returns the same value and sends nothing to the network, whatever was
    fetched in between and however the network would answer now. *)
Theorem cached_answer_is_stable network read_csv url s r s1 urls :
  fetch_cached network read_csv url s = (r, s1) ->
  fetch_cached network read_csv url (fetch_all network read_csv urls s1)
  = (r, fetch_all network read_csv urls s1).
Proof.
  intros H.
  pose proof (recall_after_fetch network read_csv url s) as Hr.
  rewrite H in Hr. simpl in Hr.
  apply (recall_kept_all network read_csv url r urls) in Hr.
  unfold fetch_cached at 1. now rewrite Hr.
Qed.

Lemma cached_answer_is_stable_witness :
  fetch_cached (fun n => if (n =? 0)%nat then Samples.canned_get else fun _ => None)
    Samples.canned_read_csv "https://example.org/gdp.csv"
    (fetch_all (fun n => if (n =? 0)%nat then Samples.canned_get else fun _ => None)
       Samples.canned_read_csv
       ["https://example.org/header.csv"; "https://example.org/gdp.csv"]
       {| cache := [("https://example.org/gdp.csv", Data Samples.gdp_table)];
          requested := ["https://example.org/gdp.csv"] |})
  = (Data Samples.gdp_table,
     fetch_all (fun n => if (n =? 0)%nat then Samples.canned_get else fun _ => None)
       Samples.canned_read_csv
       ["https://example.org/header.csv"; "https://example.org/gdp.csv"]
       {| cache := [("https://example.org/gdp.csv", Data Samples.gdp_table)];
          requested := ["https://example.org/gdp.csv"] |}).
Proof.
  apply (cached_answer_is_stable
           (fun n => if (n =? 0)%nat then Samples.canned_get else fun _ => None)
           Samples.canned_read_csv "https://example.org/gdp.csv" start).
  reflexivity.
Defined.

(** X14.  In a session that starts with an empty memo, each link is requested
    from the network at most once, and the links requested are exactly the
    links fetched. *)
Theorem one_request_per_link network read_csv urls :
  NoDup (requested (fetch_all network read_csv urls start)) /\
  (forall u, In u (requested (fetch_all network read_csv urls start)) <->
             In u urls) /\
  (List.length (requested (fetch_all network read_csv urls start))
   <= List.length urls)%nat.
Proof.
  destruct (fetch_all_tidy network read_csv urls start tidy_start)
    as [[_ Hn] Hin].
  assert (Hiff : forall u, In u (requested (fetch_all network read_csv urls start))
                           <-> In u urls).
  { intros u. rewrite Hin. simpl. tauto. }
  split; [exact Hn | split; [exact Hiff |]].
  apply NoDup_incl_length; [exact Hn |].
  intros u Hu. now apply Hiff.
Qed.

(** *** The resolver with the memo *)

Section Steady.

(** A network that answers each link the same way at every request. *)
Variable requests_get : string -> option Response.
Variable read_csv : string -> option DataFrame.

Let answer := fetch_country_data requests_get read_csv.
Let net (n : nat) := requests_get.

Lemma fetch_cached_agrees u s :
  agrees answer s ->
  fst (fetch_cached net read_csv u s) = answer u /\
  agrees answer (snd (fetch_cached net read_csv u s)).
Proof.
  intros Hs. unfold fetch_cached.
  destruct (recall u (cache s)) as [r|] eqn:E; simpl.
  - split; [now apply Hs | exact Hs].
  - split; [reflexivity |].
    intros v r. simpl.
    destruct (String.eqb_spec u v) as [-> | Hne].
    + intros H. now injection H as <-.
    + apply Hs.
Qed.

Lemma scan_cached_requests links :
  forall s, tidy s -> agrees answer s ->
    forall u, In u (requested (snd (scan_cached net read_csv links s))) ->
      In u (requested s) \/ (In (Some u) links /\ usable (Some u) = true).
Proof.
  induction links as [|url links IH]; intros s Ht Hs v Hv; simpl in Hv;
    [now left |].
  destruct url as [u|].
  - simpl in Hv. destruct (negb (Text.strip u =? "")) eqn:U.
    + destruct (fetch_cached_agrees u s Hs) as [_ Ha].
      pose proof (tidy_fetch net read_csv u s Ht) as Ht'.
      pose proof (requested_fetch net read_csv u s v Ht) as Hreq.
      destruct (fetch_cached net read_csv u s) as [r s'] eqn:E.
      simpl in Ha, Ht', Hreq.
      assert (Hstop : In v (requested s') ->
                In v (requested s) \/
                (In (Some v) (Some u :: links) /\ usable (Some v) = true)).
      { intros H. apply Hreq in H. destruct H as [-> | H]; [| now left].
        right. split; [now left | exact U]. }
      assert (Hgo : In v (requested (snd (scan_cached net read_csv links s'))) ->
                In v (requested s) \/
                (In (Some v) (Some u :: links) /\ usable (Some v) = true)).
      { intros H. destruct (IH s' Ht' Ha v H) as [H' | [H1 H2]].
        - now apply Hstop.
        - right. split; [now right | exact H2]. }
      destruct r as [d| |]; auto.
      destruct (Text.mem "Entity" (columns d)); auto.
    + destruct (IH s Ht Hs v Hv) as [H | [H1 H2]]; [now left |].
      right. split; [now right | exact H2].
  - destruct (IH s Ht Hs v Hv) as [H | [H1 H2]]; [now left |].
    right. split; [now right | exact H2].
Qed.

Lemma scan_cached_decided before url first_data after :
  usable url = true ->
  probe requests_get read_csv url = Some first_data ->
  forall s, agrees answer s ->
    scan_cached net read_csv (before ++ url :: after)%list s
    = scan_cached net read_csv (before ++ [url])%list s.
Proof.
  intros Hu Hp. induction before as [|x before IH]; intros s Hs.
  - simpl. destruct url as [u|]; [| discriminate].
    simpl in Hu. rewrite Hu.
    destruct (fetch_cached_agrees u s Hs) as [Hf _].
    destruct (fetch_cached net read_csv u s) as [r s'] eqn:E. simpl in Hf.
    unfold probe in Hp. fold answer in Hp. rewrite <- Hf in Hp.
    destruct r as [d| |]; try discriminate.
    destruct (Text.mem "Entity" (columns d)); [reflexivity | discriminate].
  - simpl. destruct x as [u|]; [| now apply IH].
    destruct (negb (Text.strip u =? "")); [| now apply IH].
    destruct (fetch_cached_agrees u s Hs) as [_ Ha].
    destruct (fetch_cached net read_csv u s) as [r s'] eqn:E. simpl in Ha.
    destruct r as [d| |]; try now apply IH.
    destruct (Text.mem "Entity" (columns d)); [reflexivity | now apply IH].
Qed.

End Steady.

Lemma agrees_start answer : agrees answer start.
Proof. intros u r H. discriminate. Qed.

(** X15.  With a network that answers each link the same way every time, and a
    memo whose entries are what the fetcher returns, the loop that goes
    through the memo finds the countries the plain loop finds. *)
Theorem scan_cached_refines requests_get read_csv links s :
  agrees (fetch_country_data requests_get read_csv) s ->
  fst (scan_cached (fun _ => requests_get) read_csv links s)
  = scan requests_get read_csv links.
Proof.
  revert s. induction links as [|url links IH]; intros s Hs; simpl;
    [reflexivity |].
  destruct url as [u|]; simpl; [| now apply IH].
  destruct (negb (Text.strip u =? "")); [| now apply IH].
  destruct (fetch_cached_agrees requests_get read_csv u s Hs) as [Hf Ha].
  destruct (fetch_cached (fun _ => requests_get) read_csv u s) as [r s'] eqn:E.
  simpl in Hf, Ha. rewrite <- Hf.
  destruct r as [d| |]; try now apply IH.
  destruct (Text.mem "Entity" (columns d)); [reflexivity | now apply IH].
Qed.

Lemma scan_cached_refines_witness :
  fst (scan_cached (fun _ => Samples.canned_get) Samples.canned_read_csv
         [Some "   "; Some "https://example.org/gone.csv";
          Some "https://example.org/gdp.csv"] start)
  = scan Samples.canned_get Samples.canned_read_csv
         [Some "   "; Some "https://example.org/gone.csv";
          Some "https://example.org/gdp.csv"].
Proof.
  apply (scan_cached_refines Samples.canned_get Samples.canned_read_csv).
  apply agrees_start.
Defined.

(** X16.  In a session that starts with an empty memo, the loop requests only
    links that are present and not blank, and once a link has given a
    table with an Entity column it requests nothing that comes after it. *)
Theorem scan_cached_stops requests_get read_csv links :
  (forall u,
     In u (requested (snd (scan_cached (fun _ => requests_get) read_csv
                                       links start))) ->
     In (Some u) links /\ usable (Some u) = true) /\
  (forall before url first_data after,
     links = (before ++ url :: after)%list ->
     usable url = true ->
     probe requests_get read_csv url = Some first_data ->
     forall u,
       In u (requested (snd (scan_cached (fun _ => requests_get) read_csv
                                         links start))) ->
       In (Some u) (before ++ [url])%list).
Proof.
  split.
  - intros u Hu.
    destruct (scan_cached_requests requests_get read_csv links start
                tidy_start (agrees_start _) u Hu) as [[] | H].
    exact H.
  - intros before url first_data after -> Husable Hprobe u Hu.
    rewrite (scan_cached_decided requests_get read_csv before url first_data
               after Husable Hprobe start (agrees_start _)) in Hu.
    destruct (scan_cached_requests requests_get read_csv _ start
                tidy_start (agrees_start _) u Hu) as [[] | [H _]].
    exact H.
Qed.

Lemma scan_cached_stops_witness :
  ~ In "https://example.org/header.csv"
       (requested
          (snd (scan_cached (fun _ => Samples.canned_get)
                  Samples.canned_read_csv
                  [Some "   "; Some "https://example.org/gone.csv";
                   Some "https://example.org/gdp.csv";
                   Some "https://example.org/header.csv"] start))).
Proof.
  intros Hin.
  destruct (scan_cached_stops Samples.canned_get Samples.canned_read_csv
              [Some "   "; Some "https://example.org/gone.csv";
               Some "https://example.org/gdp.csv";
               Some "https://example.org/header.csv"]) as [_ H].
  specialize (H [Some "   "; Some "https://example.org/gone.csv"]
                (Some "https://example.org/gdp.csv") Samples.gdp_table
                [Some "https://example.org/header.csv"]
                eq_refl eq_refl eq_refl _ Hin).
  simpl in H. destruct H as [H | [H | [H | []]]]; discriminate.
Defined.

End MemoFacts.
